(** * presidio-anonymizer: the request entity and its validation

    A shallow embedding of
    [presidio_anonymizer/entities/anonymizer_request.py] (class
    [AnonymizerRequest]) together with the collaborators the request
    relies on, and the properties of the anonymizer specification that
    concern them. *)

From Stdlib Require Import ZArith String Ascii List QArith DecimalString.
From stdpp Require Import base option list gmap strings sorting functions.

Local Open Scope Z_scope.
Local Open Scope string_scope.

(** ** Python values *)

(** Identity of a policy object (an anonymizer dto, a mutable [dict]).  Two
    occurrences of one [loc] are one object. *)
Abbreviation loc := nat.

(** The values a request carries.  A [str] is a sequence of code points
    below 256; a [float] is given by the rational it denotes; [VClass] is an
    anonymizer class taken from the registry. *)
#[warnings="-register-all"]
Inductive value : Type :=
  | VNone
  | VBool (b : bool)
  | VInt (z : Z)
  | VFloat (q : Q)
  | VStr (s : string)
  | VList (l : list value)
  | VDict (d : list (string * value))
  | VClass (name : string).

(** A [dict] with [str] keys, in insertion order. *)
Abbreviation pydict := (list (string * value)).

Module Dict.

(** [d.get(k)] *)
Fixpoint get {A : Type} (k : string) (d : list (string * A)) : option A :=
  match d with
  | [] => None
  | (k', v) :: d' => if String.eqb k k' then Some v else get k d'
  end.

(** [d[k] = v]: an existing key keeps its position, a new one goes last. *)
Fixpoint set {A : Type} (k : string) (v : A) (d : list (string * A))
  : list (string * A) :=
  match d with
  | [] => [(k, v)]
  | (k', v') :: d' =>
      if String.eqb k k' then (k, v) :: d' else (k', v') :: set k v d'
  end.

End Dict.

(** [bool(v)], the test behind [if not v]. *)
Definition truthy (v : value) : bool :=
  match v with
  | VNone => false
  | VBool b => b
  | VInt z => negb (Z.eqb z 0)
  | VFloat q => negb (Qeq_bool q 0)
  | VStr s => negb (String.eqb s "")
  | VList l => match l with [] => false | _ => true end
  | VDict d => match d with [] => false | _ => true end
  | VClass _ => true
  end.

(** [str.lower] on code points below 256: A-Z, and the Latin-1 capitals
    U+00C0..U+00DE except the multiplication sign U+00D7. *)
Definition lower_char (c : ascii) : ascii :=
  let n := N_of_ascii c in
  if ((65 <=? n) && (n <=? 90) ||
      (192 <=? n) && (n <=? 222) && negb (n =? 215))%N
  then ascii_of_N (n + 32) else c.

Fixpoint lower (s : string) : string :=
  match s with
  | EmptyString => EmptyString
  | String c s' => String (lower_char c) (lower s')
  end.

(** [str(z)] for an [int]. *)
Definition str_of_int (z : Z) : string :=
  NilZero.string_of_int (Z.to_int z).

(** ** Exceptions *)

Inductive exn : Type :=
  | InvalidParamException (err_msg : string)
  | AttributeError
  | KeyError (key : string)
  | TypeError.

(** The error taxonomy of the specification, as the messages the code
    raises [InvalidParamException] with. *)
Definition EmptyText : exn :=
  InvalidParamException "Invalid input, text can not be empty".

Definition EmptySpans : exn :=
  InvalidParamException ("Invalid input, " ++ "analyzer results can not be empty").

Definition UnknownPolicyKind (anonymizer_type : string) : exn :=
  InvalidParamException ("Invalid anonymizer class '" ++ anonymizer_type ++ "'.").

Definition MissingField (field : string) : exn :=
  InvalidParamException ("Invalid input, analyzer result must contain " ++ field).

Definition OutOfBounds (start end_ text_len : Z) : exn :=
  InvalidParamException
    ("Invalid analyzer result, start: " ++ str_of_int start ++ " and end: " ++
     str_of_int end_ ++ ", while text length is only " ++ str_of_int text_len ++ ".").

(** ** The error monad and the state of a request *)

(** A computation that returns or raises. *)
Abbreviation Exc := (sum exn).

#[global] Instance Exc_ret : MRet Exc := λ A x, inr x.
#[global] Instance Exc_bind : MBind Exc :=
  λ A B f m, match m with inl e => inl e | inr x => f x end.

(** ** Analyzer results *)

(** Modelled from the spec: the class [AnalyzerResult] is imported from
    [presidio_anonymizer.entities] and is not part of the sources at hand.
    A span carries [start], [end], [score] and its label [entity_type]. *)
Record AnalyzerResult : Type := mkAnalyzerResult {
  start : Z;
  end_ : Z;
  score : option value;
  entity_type : string;
}.

Definition require_field (field : string) (content : pydict) : Exc value :=
  match Dict.get field content with
  | None | Some VNone => inl (MissingField field)
  | Some v => inr v
  end.

Definition as_int (v : value) : Exc Z :=
  match v with VInt z => inr z | _ => inl TypeError end.

Definition as_str (v : value) : Exc string :=
  match v with VStr s => inr s | _ => inl TypeError end.

(** Modelled from the spec: the constructor [AnalyzerResult(content)] is not
    part of the sources at hand.  Section 4.1: it fails with [MissingField]
    when the span omits [start], [end] or the label [entity_type]; the test
    suite fixes the message for [start], and that [start] is reported when
    several fields are missing.  The offsets are [int]s and the label is a
    [str]. *)
Definition AnalyzerResult_new (content : value) : Exc AnalyzerResult :=
  match content with
  | VDict d =>
      s ← require_field "start" d;
      e ← require_field "end" d;
      t ← require_field "entity_type" d;
      s ← as_int s;
      e ← as_int e;
      t ← as_str t;
      mret (mkAnalyzerResult s e (Dict.get "score" d) t)
  | _ => inl AttributeError
  end.

(** Modelled from the spec: [AnalyzerResult.validate_position_in_text] is not
    part of the sources at hand.  Section 4.1: it fails with [OutOfBounds]
    when [start < 0], [end > length(text)] or [start >= end], and the
    message reports both offsets and the text length. *)
Definition validate_position_in_text (r : AnalyzerResult) (text_len : Z)
  : Exc unit :=
  if (start r <? 0)%Z || (end_ r >? text_len)%Z || (start r >=? end_ r)%Z
  then inl (OutOfBounds (start r) (end_ r) text_len)
  else inr tt.

(** [len(v)] *)
Definition py_len (v : value) : Exc Z :=
  match v with
  | VStr s => inr (Z.of_nat (String.length s))
  | VList l => inr (Z.of_nat (length l))
  | VDict d => inr (Z.of_nat (length d))
  | _ => inl TypeError
  end.

Fixpoint chars (s : string) : list value :=
  match s with
  | EmptyString => []
  | String c s' => VStr (String c EmptyString) :: chars s'
  end.

(** The elements [for x in v] goes over. *)
Definition py_iter (v : value) : Exc (list value) :=
  match v with
  | VList l => inr l
  | VDict d => inr ((VStr ∘ fst) <$> d)
  | VStr s => inr (chars s)
  | _ => inl TypeError
  end.

(** ** The request *)

(** The [data] argument of the constructor, through the three lookups the
    code makes: [data.get("text")], [data.get("analyzer_results")] ([VNone]
    for a key that is absent) and [data.get("anonymizers")], which is [None]
    or a [dict] from label to policy object. *)
Record request_data : Type := mkData {
  d_text : value;
  d_analyzer_results : value;
  d_anonymizers : option (list (string * loc));
}.

(** The attributes of an [AnonymizerRequest].  [anonymizers] is the registry
    of anonymizer classes by kind; [_text] and [default_anonymizer] are
    unset until [__init__] binds them.  [default_anonymizer] is a [dict] of
    the request's own; the policies of [_anonymizers] are the caller's
    objects.  [_analysis_results] is an [AnalyzerResults], used here as the
    list that [append] extends. *)
Record AnonymizerRequest : Type := mkRequest {
  anonymizers : gmap string string;
  _anonymizers : gmap string loc;
  _analysis_results : list AnalyzerResult;
  _text : option value;
  default_anonymizer : option pydict;
}.

(** The object store: the request under construction or in use, and the
    policy objects of the caller. *)
Record world : Type := mkWorld {
  self : AnonymizerRequest;
  heap : loc → pydict;
}.

(** A policy object as [get_anonymizer_dto] returns it: one of the caller's,
    or the built-in default of the request. *)
Inductive dto_ref : Type :=
  | Supplied (l : loc)
  | BuiltinDefault.

(** A method: it reads and writes the store and returns or raises.  What
    was written before an exception stays written. *)
Definition M (A : Type) : Type := world → Exc A * world.

#[global] Instance M_ret : MRet M := λ A x w, (inr x, w).
#[global] Instance M_bind : MBind M :=
  λ A B f m w,
    match m w with
    | (inl e, w') => (inl e, w')
    | (inr x, w') => f x w'
    end.

Definition raise {A : Type} (e : exn) : M A := λ w, (inl e, w).
Definition lift {A : Type} (m : Exc A) : M A := λ w, (m, w).
Definition get_self : M AnonymizerRequest := λ w, (inr (self w), w).
Definition set_self (f : AnonymizerRequest → AnonymizerRequest) : M unit :=
  λ w, (inr tt, mkWorld (f (self w)) (heap w)).
Definition read (l : loc) : M pydict := λ w, (inr (heap w l), w).
Definition write (l : loc) (d : pydict) : M unit :=
  λ w, (inr tt, mkWorld (self w) (<[l := d]> (heap w))).

Definition with_text (v : value) (s : AnonymizerRequest) : AnonymizerRequest :=
  mkRequest (anonymizers s) (_anonymizers s) (_analysis_results s) (Some v)
            (default_anonymizer s).

Definition with_result (r : AnalyzerResult) (s : AnonymizerRequest)
  : AnonymizerRequest :=
  mkRequest (anonymizers s) (_anonymizers s) (_analysis_results s ++ [r])
            (_text s) (default_anonymizer s).

Definition with_anonymizer (key : string) (l : loc) (s : AnonymizerRequest)
  : AnonymizerRequest :=
  mkRequest (anonymizers s) (<[key := l]> (_anonymizers s))
            (_analysis_results s) (_text s) (default_anonymizer s).

Definition with_default (d : pydict) (s : AnonymizerRequest) : AnonymizerRequest :=
  mkRequest (anonymizers s) (_anonymizers s) (_analysis_results s) (_text s)
            (Some d).

(** ** The methods of [AnonymizerRequest] *)

(** [__handle_text]: the text is bound first, then checked. *)
Definition __handle_text (data : request_data) : M unit :=
  set_self (with_text (d_text data));;
  if truthy (d_text data) then mret tt else raise EmptyText.

(** The body of the loop of [__handle_analyzer_results]. *)
Fixpoint analyzer_results_loop (text_len : Z) (results : list value) : M unit :=
  match results with
  | [] => mret tt
  | analyzer_result :: rest =>
      analyzer_result ← lift (AnalyzerResult_new analyzer_result);
      lift (validate_position_in_text analyzer_result text_len);;
      set_self (with_result analyzer_result);;
      analyzer_results_loop text_len rest
  end.

Definition __handle_analyzer_results (data : request_data) : M unit :=
  let analyzer_results := d_analyzer_results data in
  if truthy analyzer_results then
    text_len ← lift (py_len (d_text data));
    results ← lift (py_iter analyzer_results);
    analyzer_results_loop text_len results
  else raise EmptySpans.

(** [__get_anonymizer]: the class registered for the lowercased [type] of a
    policy.  [None.lower()], as for any value that is not a [str], is an
    [AttributeError]. *)
Definition __get_anonymizer (anonymizer : pydict) : M string :=
  match Dict.get "type" anonymizer with
  | Some (VStr type) =>
      let anonymizer_type := lower type in
      s ← get_self;
      match anonymizers s !! anonymizer_type with
      | Some anonymizer => mret anonymizer
      | None => raise (UnknownPolicyKind anonymizer_type)
      end
  | _ => raise AttributeError
  end.

(** The body of the loop of [__handle_anonymizers], over
    [anonymizers.items()]. *)
Fixpoint anonymizers_loop (items : list (string * loc)) : M unit :=
  match items with
  | [] => mret tt
  | (key, l) :: rest =>
      anonymizer_dto ← read l;
      anonymizer ← __get_anonymizer anonymizer_dto;
      write l (Dict.set "anonymizer" (VClass anonymizer) anonymizer_dto);;
      set_self (with_anonymizer key l);;
      anonymizers_loop rest
  end.

Definition __handle_anonymizers (data : request_data) : M unit :=
  match d_anonymizers data with
  | Some items => anonymizers_loop items
  | None => mret tt
  end.

Definition __validate_and_insert_input (data : request_data) : M unit :=
  __handle_text data;;
  __handle_analyzer_results data;;
  __handle_anonymizers data.

(** [__init__]; [self.anonymizers["replace"]] is a [KeyError] when the
    registry has no such kind. *)
Definition __init__ (data : request_data) (registry : gmap string string)
  : M unit :=
  set_self (λ _, mkRequest registry ∅ [] None None);;
  __validate_and_insert_input data;;
  match registry !! "replace" with
  | Some replace =>
      set_self (with_default [("type", VStr "replace");
                              ("anonymizer", VClass replace)])
  | None => raise (KeyError "replace")
  end.

(** [AnonymizerRequest(data, anonymizers)] in a store [h] of policy objects:
    the outcome and the store afterwards. *)
Definition new_request (data : request_data) (registry : gmap string string)
    (h : loc → pydict) : Exc unit * world :=
  __init__ data registry (mkWorld (mkRequest ∅ ∅ [] None None) h).

(** [self._anonymizers.get(key)], with the test [if not anonymizer_dto]
    folded in: a policy that is there and is not an empty [dict]. *)
Definition lookup_dto (key : string) : M (option loc) :=
  λ w,
    match _anonymizers (self w) !! key with
    | Some l => (inr (if truthy (VDict (heap w l)) then Some l else None), w)
    | None => (inr None, w)
    end.

(** [dto[key] = v] *)
Definition set_item (r : dto_ref) (key : string) (v : value) : M unit :=
  λ w,
    match r with
    | Supplied l =>
        (inr tt, mkWorld (self w) (<[l := Dict.set key v (heap w l)]> (heap w)))
    | BuiltinDefault =>
        match default_anonymizer (self w) with
        | Some d => (inr tt, mkWorld (with_default (Dict.set key v d) (self w)) (heap w))
        | None => (inl AttributeError, w)
        end
    end.

Definition get_anonymizer_dto (entity_type : string) : M dto_ref :=
  anonymizer_dto ← lookup_dto entity_type;
  anonymizer_dto ←
    match anonymizer_dto with
    | Some l => mret (Supplied l)
    | None =>
        anonymizer_dto ← lookup_dto "DEFAULT";
        match anonymizer_dto with
        | Some l => mret (Supplied l)
        | None => mret BuiltinDefault
        end
    end;
  set_item anonymizer_dto "entity_type" (VStr entity_type);;
  mret anonymizer_dto.

Definition get_text : M (option value) := s ← get_self; mret (_text s).

Definition get_analysis_results : M (list AnalyzerResult) :=
  s ← get_self; mret (_analysis_results s).

(** The [dict] a policy reference stands for. *)
Definition deref (w : world) (r : dto_ref) : option pydict :=
  match r with
  | Supplied l => Some (heap w l)
  | BuiltinDefault => default_anonymizer (self w)
  end.

(** ** The Conflict Resolver *)

Module ConflictResolver.

(** The order of the sort: [end] descending, then [start] ascending. *)
Definition before (a b : AnalyzerResult) : Prop :=
  (end_ b < end_ a ∨ (end_ a = end_ b ∧ start a ≤ start b))%Z.

#[global] Instance before_dec a b : Decision (before a b).
Proof. unfold before. apply _. Defined.

#[global] Instance before_total : Total before.
Proof. intros a b. unfold before. lia. Qed.

#[global] Instance before_transitive : Transitive before.
Proof. intros a b c. unfold before. lia. Qed.

(** The ranges [start, end) of two spans share an offset. *)
Definition intersects (a b : AnalyzerResult) : bool :=
  (Z.max (start a) (start b) <? Z.min (end_ a) (end_ b))%Z.

(** An exact duplicate: same [start], [end] and label. *)
Definition duplicate (a b : AnalyzerResult) : bool :=
  (start a =? start b)%Z && (end_ a =? end_ b)%Z &&
  String.eqb (entity_type a) (entity_type b).

(** The walk over the sorted spans; [claimed] are the spans accepted so
    far.  A span that intersects a claimed range, or repeats a claimed
    span, is dropped; the first accepted wins. *)
Fixpoint walk (claimed sorted : list AnalyzerResult) : list AnalyzerResult :=
  match sorted with
  | [] => []
  | x :: rest =>
      if existsb (intersects x) claimed || existsb (duplicate x) claimed
      then walk claimed rest
      else x :: walk (x :: claimed) rest
  end.

(** Modelled from the spec: [AnalyzerResults.to_sorted_unique_results] is
    imported from [presidio_anonymizer.entities] and is not part of the
    sources at hand (the engine test replaces it by a stub).  Section 4.3:
    sort by [end] descending and [start] ascending, walk the sorted
    sequence and drop every span that intersects an accepted one, collapse
    exact duplicates. *)
Definition to_sorted_unique_results (results : list AnalyzerResult)
  : list AnalyzerResult :=
  walk [] (merge_sort before results).

(** The ranges [start, end) of two spans have no offset in common. *)
Definition disjoint (a b : AnalyzerResult) : Prop :=
  ∀ z : Z, ¬ ((start a ≤ z < end_ a) ∧ (start b ≤ z < end_ b))%Z.

(** Ordered by descending [end]. *)
Definition end_descending (l : list AnalyzerResult) : Prop :=
  ∀ (i j : nat) (a b : AnalyzerResult),
    (i < j)%nat → l !! i = Some a → l !! j = Some b → (end_ b ≤ end_ a)%Z.

Definition pairwise_disjoint (l : list AnalyzerResult) : Prop :=
  ∀ (i j : nat) (a b : AnalyzerResult),
    i ≠ j → l !! i = Some a → l !! j = Some b → disjoint a b.

End ConflictResolver.

(** ** What construction does, read off the input *)

(** The store [__init__] starts validation in: the registry bound, no span
    and no policy recorded. *)
Definition initial (registry : gmap string string) (h : loc → pydict) : world :=
  mkWorld (mkRequest registry ∅ [] None None) h.

(** One turn of the loop over the spans: construct, then check the
    position. *)
Definition validate_span (text_len : Z) (v : value) : Exc AnalyzerResult :=
  r ← AnalyzerResult_new v;
  validate_position_in_text r text_len;;
  mret r.

(** The spans recorded before the loop ends or raises. *)
Fixpoint recorded (text_len : Z) (results : list value) : list AnalyzerResult :=
  match results with
  | [] => []
  | v :: rest =>
      match validate_span text_len v with
      | inr r => r :: recorded text_len rest
      | inl _ => []
      end
  end.

(** The outcome of the loop over the spans. *)
Fixpoint spans_outcome (text_len : Z) (results : list value) : Exc unit :=
  match results with
  | [] => inr tt
  | v :: rest =>
      match validate_span text_len v with
      | inr _ => spans_outcome text_len rest
      | inl e => inl e
      end
  end.

(** The outcome of [__handle_analyzer_results], read off the input. *)
Definition results_outcome (data : request_data) : Exc unit :=
  if truthy (d_analyzer_results data) then
    text_len ← py_len (d_text data);
    results ← py_iter (d_analyzer_results data);
    spans_outcome text_len results
  else inl EmptySpans.

(** The spans [__handle_analyzer_results] records, read off the input. *)
Definition data_recorded (data : request_data) : list AnalyzerResult :=
  if truthy (d_analyzer_results data) then
    match py_len (d_text data), py_iter (d_analyzer_results data) with
    | inr text_len, inr results => recorded text_len results
    | _, _ => []
    end
  else [].

(** The class a policy resolves to in a registry, or the exception. *)
Definition class_of (registry : gmap string string) (anonymizer : pydict)
  : Exc string :=
  match Dict.get "type" anonymizer with
  | Some (VStr type) =>
      match registry !! lower type with
      | Some anonymizer => inr anonymizer
      | None => inl (UnknownPolicyKind (lower type))
      end
  | _ => inl AttributeError
  end.

(** The outcome of the loop over the policies: the exception of the first
    policy, in the order of the [dict], that has one. *)
Fixpoint policies_outcome (registry : gmap string string) (h : loc → pydict)
    (items : list (string * loc)) : Exc unit :=
  match items with
  | [] => inr tt
  | (_, l) :: rest =>
      match class_of registry (h l) with
      | inr _ => policies_outcome registry h rest
      | inl e => inl e
      end
  end.

(** The outcome of construction, read off the input: the text, then the
    spans, then the policies, then the built-in default. *)
Definition construction_outcome (data : request_data)
    (registry : gmap string string) (h : loc → pydict) : Exc unit :=
  if truthy (d_text data) then
    results_outcome data;;
    match d_anonymizers data with
    | Some items => policies_outcome registry h items
    | None => inr tt
    end;;
    match registry !! "replace" with
    | Some _ => inr tt
    | None => inl (KeyError "replace")
    end
  else inl EmptyText.

(** The policy map of a request, label to policy object: the entries of
    [data.get("anonymizers")], none when it is [None]. *)
Definition policy_map (data : request_data) : gmap string loc :=
  match d_anonymizers data with
  | Some items => foldl (λ m item, <[item.1 := item.2]> m) ∅ items
  | None => ∅
  end.

(** The three tiers of policy resolution over a policy map. *)
Definition three_tier (policies : gmap string loc) (label : string) : dto_ref :=
  match policies !! label with
  | Some l => Supplied l
  | None =>
      match policies !! "DEFAULT" with
      | Some l => Supplied l
      | None => BuiltinDefault
      end
  end.

(** The stores a request goes through: the one construction leaves, and
    those after each policy resolution. *)
Inductive reachable (data : request_data) (registry : gmap string string)
    (h : loc → pydict) : world → Prop :=
  | reachable_new w :
      new_request data registry h = (inr tt, w) →
      reachable data registry h w
  | reachable_get w entity_type r w' :
      reachable data registry h w →
      get_anonymizer_dto entity_type w = (inr r, w') →
      reachable data registry h w'.

(** ** A sample request *)

Module Sample.

Definition registry : gmap string string :=
  <["replace" := "Replace"]> (<["mask" := "Mask"]> ∅).

(** A registry without the kind [replace]. *)
Definition mask_only : gmap string string := <["mask" := "Mask"]> ∅.

(** Four policy objects: a replace policy, a mask policy whose kind is
    written in capitals, a policy without [type], and one of an unknown
    kind. *)
Definition policies : loc → pydict := λ l,
  match l with
  | 0%nat => [("type", VStr "replace"); ("new_value", VStr "ANONYMIZED")]
  | 1%nat => [("type", VStr "MASK"); ("masking_char", VStr "*");
              ("chars_to_mask", VInt 4); ("from_end", VBool true)]
  | 2%nat => [("new_value", VStr "ANONYMIZED")]
  | 3%nat => [("type", VStr "none")]
  | _ => []
  end.

Definition span (s e : Z) (label : string) : value :=
  VDict [("start", VInt s); ("end", VInt e); ("score", VFloat (4 # 5));
         ("entity_type", VStr label)].

Definition text : value := VStr "hello world".

Definition data : request_data :=
  mkData text (VList [span 6 11 "PHONE_NUMBER"; span 0 5 "NAME"])
         (Some [("DEFAULT", 0%nat); ("PHONE_NUMBER", 1%nat)]).

(** Every span has a policy of its own. *)
Definition masked : request_data :=
  mkData text (VList [span 6 11 "PHONE_NUMBER"]) (Some [("PHONE_NUMBER", 1%nat)]).

Definition no_policies : request_data :=
  mkData text (VList [span 0 5 "NAME"]) None.

Definition out_of_bounds : request_data :=
  mkData text (VList [span 0 5 "NAME"; span 5 12 "NAME"]) None.

Definition no_type : request_data :=
  mkData text (VList [span 0 5 "NAME"]) (Some [("DEFAULT", 0%nat); ("NAME", 2%nat)]).

Definition unknown_kind : request_data :=
  mkData text (VList [span 0 5 "NAME"]) (Some [("DEFAULT", 0%nat); ("NAME", 3%nat)]).

(** The empty [dict]: no text, no spans, no policies. *)
Definition empty : request_data := mkData VNone VNone None.

(** The text of the test suite, and its span without [start] and label. *)
Definition jane : value :=
  VStr "hello world, my name is Jane Doe. My number is: 034453334".

Definition no_start : request_data :=
  mkData jane (VList [VDict [("end", VInt 32); ("score", VFloat (4 # 5))]]) None.

End Sample.

(** * Properties *)

Example str_of_int_digits :
  str_of_int 0 = "0" ∧ str_of_int 11 = "11" ∧ str_of_int (-5) = "-5".
Proof. repeat split. Qed.

Example lower_mixed_case : lower "MaSk_9" = "mask_9".
Proof. reflexivity. Qed.

(** ** The Conflict Resolver yields disjoint spans by descending end *)

Section conflict_resolver.
Import ConflictResolver.

Lemma intersects_false_disjoint a b : intersects a b = false → disjoint a b.
Proof. unfold intersects, disjoint. intros H z. apply Z.ltb_ge in H. lia. Qed.

Lemma disjoint_intersects_false a b : disjoint a b → intersects a b = false.
Proof.
  unfold intersects, disjoint. intros H. apply Z.ltb_ge.
  destruct (Z.lt_ge_cases (Z.max (start a) (start b)) (Z.min (end_ a) (end_ b)))
    as [Hlt|Hge]; [|lia].
  exfalso. apply (H (Z.max (start a) (start b))). lia.
Qed.

Lemma disjoint_sym a b : disjoint a b → disjoint b a.
Proof. unfold disjoint. intros H z [? ?]. apply (H z). done. Qed.

(** Every pair of a strongly sorted list, by position. *)
Lemma StronglySorted_lookup {A} (R : relation A) (l : list A) i j a b :
  StronglySorted R l → (i < j)%nat → l !! i = Some a → l !! j = Some b → R a b.
Proof.
  intros Hl. revert i j. induction Hl as [|x l Hl IH Hx]; intros i j Hij Hi Hj.
  - by rewrite lookup_nil in Hi.
  - destruct j as [|j]; [lia|]. destruct i as [|i]; simpl in *.
    + injection Hi as <-. by eapply Forall_lookup_1.
    + apply (IH i j); [lia|done..].
Qed.

Lemma walk_elem_of claimed l x : x ∈ walk claimed l → x ∈ l.
Proof.
  revert claimed. induction l as [|y l IH]; intros claimed; simpl; [done|].
  destruct (_ || _); rewrite ?elem_of_cons; intros H; [right|destruct H; [left|right]]; eauto.
Qed.

(** An accepted span intersects none of the spans claimed before it. *)
Lemma walk_avoids_claimed claimed l x y :
  x ∈ walk claimed l → y ∈ claimed → intersects x y = false.
Proof.
  revert claimed. induction l as [|z l IH]; intros claimed; simpl.
  { by intros ?%elem_of_nil. }
  destruct (existsb (intersects z) claimed) eqn:Hz; simpl.
  { apply IH. }
  destruct (existsb (duplicate z) claimed); [apply IH|].
  intros [Heq|Hx]%elem_of_cons Hy.
  - subst z. destruct (intersects x y) eqn:Hxy; [|done].
    assert (existsb (intersects x) claimed = true) as Hex; [|congruence].
    apply existsb_exists. exists y. split; [|done]. by apply list_elem_of_In.
  - apply (IH (z :: claimed)); [done|]. apply elem_of_cons. by right.
Qed.

Lemma walk_apart claimed l :
  StronglySorted (λ a b, intersects b a = false) (walk claimed l).
Proof.
  revert claimed. induction l as [|z l IH]; intros claimed; simpl.
  { constructor. }
  destruct (_ || _); [apply IH|].
  constructor; [apply IH|].
  apply list.Forall_forall. intros y Hy.
  apply (walk_avoids_claimed (z :: claimed) l y z Hy). apply elem_of_cons. by left.
Qed.

Lemma walk_sorted (R : relation AnalyzerResult) claimed l :
  StronglySorted R l → StronglySorted R (walk claimed l).
Proof.
  intros Hl. revert claimed. induction Hl as [|z l Hl IH Hz]; intros claimed; simpl.
  { constructor. }
  destruct (_ || _); [apply IH|].
  constructor; [apply IH|].
  apply list.Forall_forall. intros y Hy%walk_elem_of.
  rewrite list.Forall_forall in Hz. by apply Hz.
Qed.

Lemma before_end a b : before a b → (end_ b ≤ end_ a)%Z.
Proof. unfold before. lia. Qed.

(** The first span of the sorted sequence is always accepted. *)
Lemma walk_first l : l ≠ [] → walk [] l ≠ [].
Proof. by destruct l. Qed.

(** C8: the output of the Conflict Resolver consists of spans whose
    [start, end) ranges are pairwise disjoint, and it is ordered by
    descending end offset. *)
Theorem to_sorted_unique_results_disjoint_descending
    (results : list AnalyzerResult) :
  pairwise_disjoint (to_sorted_unique_results results) ∧
  end_descending (to_sorted_unique_results results).
Proof.
  unfold to_sorted_unique_results. split.
  - intros i j a b Hij Hi Hj.
    pose proof (walk_apart [] (merge_sort before results)) as Hs.
    destruct (Nat.lt_total i j) as [Hlt|[->|Hlt]]; [| done |].
    + apply disjoint_sym, intersects_false_disjoint.
      exact (StronglySorted_lookup _ _ i j a b Hs Hlt Hi Hj).
    + apply intersects_false_disjoint.
      exact (StronglySorted_lookup _ _ j i b a Hs Hlt Hj Hi).
  - intros i j a b Hij Hi Hj. apply before_end.
    eapply (StronglySorted_lookup before); [|done..].
    apply walk_sorted, StronglySorted_merge_sort; apply _.
Qed.

(** The accepted spans are spans of the input, and some span is accepted
    whenever there is one. *)
Lemma to_sorted_unique_results_elem_of results x :
  x ∈ to_sorted_unique_results results → x ∈ results.
Proof.
  intros Hx%walk_elem_of. by rewrite merge_sort_Permutation in Hx.
Qed.

Lemma to_sorted_unique_results_nonempty results :
  results ≠ [] → to_sorted_unique_results results ≠ [].
Proof.
  intros Hne. apply walk_first. intros Hnil. apply Hne.
  apply Permutation_nil_r. rewrite <- Hnil.
  symmetry. apply merge_sort_Permutation.
Qed.

End conflict_resolver.

(** ** Dictionaries *)

Lemma dict_get_set_eq {A} (k : string) (v : A) d :
  Dict.get k (Dict.set k v d) = Some v.
Proof.
  induction d as [|[k' v'] d IH]; simpl.
  - by rewrite String.eqb_refl.
  - destruct (String.eqb k k') eqn:E; simpl; rewrite ?String.eqb_refl, ?E; done.
Qed.

Lemma dict_get_set_ne {A} (k k' : string) (v : A) d :
  k ≠ k' → Dict.get k (Dict.set k' v d) = Dict.get k d.
Proof.
  intros Hne. induction d as [|[k'' v''] d IH]; simpl.
  - by apply String.eqb_neq in Hne as ->.
  - destruct (String.eqb k' k'') eqn:E; simpl.
    + apply String.eqb_eq in E as <-. by apply String.eqb_neq in Hne as ->.
    + by rewrite IH.
Qed.

Lemma dict_set_nonempty {A} (k : string) (v : A) d : Dict.set k v d ≠ [].
Proof. destruct d as [|[k' v'] d]; simpl; [done|]. by destruct (String.eqb k k'). Qed.

Lemma dict_set_set {A} (k : string) (v v' : A) d :
  Dict.set k v (Dict.set k v' d) = Dict.set k v d.
Proof.
  induction d as [|[k' v''] d IH]; simpl.
  - by rewrite String.eqb_refl.
  - destruct (String.eqb k k') eqn:E; simpl; rewrite ?String.eqb_refl, ?E, ?IH; done.
Qed.

Lemma truthy_dict_set (k : string) (v : value) d :
  truthy (VDict (Dict.set k v d)) = true.
Proof. simpl. pose proof (dict_set_nonempty k v d). by destruct (Dict.set k v d). Qed.

Lemma truthy_dict_get (k : string) d :
  is_Some (Dict.get k d) → truthy (VDict d) = true.
Proof. destruct d; simpl; [by intros [? ?]|done]. Qed.

(** ** The steps of construction *)

(** Unfolds the monad down to functions on stores. *)
Ltac unfold_monad :=
  unfold mbind, M_bind, mret, M_ret, raise, lift, set_self, get_self, read, write.

Lemma new_request_unfold data registry h :
  new_request data registry h =
    (__validate_and_insert_input data;;
     match registry !! "replace" with
     | Some replace =>
         set_self (with_default [("type", VStr "replace");
                                 ("anonymizer", VClass replace)])
     | None => raise (KeyError "replace")
     end) (initial registry h).
Proof. reflexivity. Qed.

Lemma handle_text_spec data w :
  __handle_text data w =
    (if truthy (d_text data) then inr tt else inl EmptyText,
     mkWorld (with_text (d_text data) (self w)) (heap w)).
Proof. unfold __handle_text. unfold_monad. simpl. by destruct (truthy _). Qed.

Lemma analyzer_results_loop_spec text_len results w :
  analyzer_results_loop text_len results w =
    (spans_outcome text_len results,
     mkWorld (mkRequest (anonymizers (self w)) (_anonymizers (self w))
                (_analysis_results (self w) ++ recorded text_len results)
                (_text (self w)) (default_anonymizer (self w)))
             (heap w)).
Proof.
  revert w. induction results as [|v rest IH]; intros [[a p rs t d] h]; simpl.
  { by rewrite app_nil_r. }
  unfold validate_span. unfold_monad. unfold mbind, Exc_bind, mret, Exc_ret.
  destruct (AnalyzerResult_new v) as [e|r]; simpl.
  { by rewrite app_nil_r. }
  destruct (validate_position_in_text r text_len) as [e|[]]; simpl.
  { by rewrite app_nil_r. }
  rewrite IH. simpl. by rewrite <- app_assoc.
Qed.

Lemma handle_analyzer_results_outcome data w :
  (__handle_analyzer_results data w).1 = results_outcome data.
Proof.
  unfold __handle_analyzer_results, results_outcome. unfold_monad.
  unfold mbind, Exc_bind.
  destruct (truthy _); [|done].
  destruct (py_len _); [done|]. destruct (py_iter _); [done|].
  by rewrite analyzer_results_loop_spec.
Qed.

Lemma handle_analyzer_results_frame data w :
  let w' := (__handle_analyzer_results data w).2 in
  heap w' = heap w ∧ anonymizers (self w') = anonymizers (self w) ∧
  _anonymizers (self w') = _anonymizers (self w) ∧
  _text (self w') = _text (self w) ∧
  default_anonymizer (self w') = default_anonymizer (self w) ∧
  _analysis_results (self w') = (_analysis_results (self w) ++ data_recorded data)%list.
Proof.
  unfold __handle_analyzer_results, data_recorded. unfold_monad.
  destruct (truthy _); simpl; [|by rewrite app_nil_r].
  destruct (py_len _); simpl; [by rewrite app_nil_r|].
  destruct (py_iter _); simpl; [by rewrite app_nil_r|].
  by rewrite analyzer_results_loop_spec.
Qed.

Lemma get_anonymizer_spec anonymizer w :
  __get_anonymizer anonymizer w = (class_of (anonymizers (self w)) anonymizer, w).
Proof.
  unfold __get_anonymizer, class_of.
  destruct (Dict.get "type" anonymizer) as [[]|]; try done.
  unfold_monad. simpl. by destruct (_ !! _).
Qed.

Lemma class_of_get_type registry d d' :
  Dict.get "type" d' = Dict.get "type" d → class_of registry d' = class_of registry d.
Proof. unfold class_of. by intros ->. Qed.

Lemma policies_outcome_get_type registry h h' items :
  (∀ l, Dict.get "type" (h' l) = Dict.get "type" (h l)) →
  policies_outcome registry h' items = policies_outcome registry h items.
Proof.
  intros Hh. induction items as [|[key l] items IH]; simpl; [done|].
  by rewrite (class_of_get_type registry (h l) (h' l)), IH.
Qed.

(** The loop over the policies: its outcome, what it leaves alone, and what
    it has recorded when it ends. *)
Lemma anonymizers_loop_spec items w :
  let r := (anonymizers_loop items w).1 in
  let w' := (anonymizers_loop items w).2 in
  r = policies_outcome (anonymizers (self w)) (heap w) items ∧
  anonymizers (self w') = anonymizers (self w) ∧
  _analysis_results (self w') = _analysis_results (self w) ∧
  _text (self w') = _text (self w) ∧
  default_anonymizer (self w') = default_anonymizer (self w) ∧
  (∀ l k, k ≠ "anonymizer" → Dict.get k (heap w' l) = Dict.get k (heap w l)) ∧
  (∀ l, heap w l ≠ [] → heap w' l ≠ []) ∧
  (r = inr tt →
     _anonymizers (self w') =
       foldl (λ m item, <[item.1 := item.2]> m) (_anonymizers (self w)) items ∧
     ∀ key l, (key, l) ∈ items → heap w' l ≠ []).
Proof.
  revert w. induction items as [|[key l] items IH]; intros w; simpl.
  { split_and!; try done. intros _. split; [done|].
    intros key l Hin. by apply elem_of_nil in Hin. }
  unfold_monad. rewrite get_anonymizer_spec.
  destruct (class_of (anonymizers (self w)) (heap w l)) as [e|c] eqn:Hc; simpl.
  { split_and!; done. }
  set (w1 := mkWorld _ _).
  specialize (IH w1) as (Hr & Ha & Hrs & Ht & Hd & Hframe & Hne & Hok).
  assert (∀ l' k, k ≠ "anonymizer" →
            Dict.get k (heap w1 l') = Dict.get k (heap w l')) as Hstep.
  { intros l' k Hk. subst w1. simpl. destruct (decide (l = l')) as [->|Hl].
    - by rewrite fn_lookup_insert, dict_get_set_ne.
    - by rewrite fn_lookup_insert_ne. }
  assert (∀ l', heap w l' ≠ [] → heap w1 l' ≠ []) as Hstep_ne.
  { intros l' Hl'. subst w1. simpl. destruct (decide (l = l')) as [->|Hl].
    - rewrite fn_lookup_insert. apply dict_set_nonempty.
    - by rewrite fn_lookup_insert_ne. }
  split_and!.
  - rewrite Hr. apply policies_outcome_get_type. intros l'. by apply Hstep.
  - by rewrite Ha.
  - by rewrite Hrs.
  - by rewrite Ht.
  - by rewrite Hd.
  - intros l' k Hk. rewrite Hframe by done. by apply Hstep.
  - intros l' Hl'. by apply Hne, Hstep_ne.
  - intros Hinr. destruct (Hok Hinr) as [Hmap Hrec]. split; [done|].
    intros key' l' [Heq|Hin]%elem_of_cons.
    + injection Heq as -> ->. apply Hne. subst w1. simpl.
      rewrite fn_lookup_insert. apply dict_set_nonempty.
    + by apply (Hrec key').
Qed.

Lemma foldl_insert_lookup (items : list (string * loc)) (m : gmap string loc) key l :
  foldl (λ m item, <[item.1 := item.2]> m) m items !! key = Some l →
  m !! key = Some l ∨ (key, l) ∈ items.
Proof.
  revert m. induction items as [|[key' l'] items IH]; intros m; simpl; [by left|].
  intros [Hm|Hin]%IH.
  - destruct (decide (key' = key)) as [->|Hne].
    + rewrite lookup_insert_eq in Hm. injection Hm as ->. right. by left.
    + rewrite lookup_insert_ne in Hm by done. by left.
  - right. by right.
Qed.

Lemma policy_map_elem_of data key l :
  policy_map data !! key = Some l →
  ∃ items, d_anonymizers data = Some items ∧ (key, l) ∈ items.
Proof.
  unfold policy_map. destruct (d_anonymizers data) as [items|]; [|done].
  intros [Hm|Hin]%foldl_insert_lookup; [done|]. by exists items.
Qed.

Lemma bind_run {A B} (m : M A) (f : A → M B) w :
  (m ≫= f) w =
    match m w with
    | (inl e, w') => (inl e, w')
    | (inr x, w') => f x w'
    end.
Proof. reflexivity. Qed.

(** Construction as a whole: its outcome, and the store it leaves. *)
Lemma new_request_spec data registry h :
  let r := (new_request data registry h).1 in
  let w' := (new_request data registry h).2 in
  r = construction_outcome data registry h ∧
  anonymizers (self w') = registry ∧
  _text (self w') = Some (d_text data) ∧
  _analysis_results (self w') =
    (if truthy (d_text data) then data_recorded data else []) ∧
  (∀ l k, k ≠ "anonymizer" → Dict.get k (heap w' l) = Dict.get k (h l)) ∧
  (∀ l, h l ≠ [] → heap w' l ≠ []) ∧
  (r = inr tt →
     _anonymizers (self w') = policy_map data ∧
     (∀ key l, policy_map data !! key = Some l → heap w' l ≠ []) ∧
     ∃ replace, registry !! "replace" = Some replace ∧
       default_anonymizer (self w') =
         Some [("type", VStr "replace"); ("anonymizer", VClass replace)]).
Proof.
  destruct (new_request data registry h) as [r w'] eqn:E. simpl.
  rewrite new_request_unfold in E. unfold __validate_and_insert_input in E.
  rewrite !bind_run, handle_text_spec in E. unfold construction_outcome.
  destruct (truthy (d_text data)).
  2:{ injection E as <- <-. by split_and!. }
  rewrite bind_run in E. set (w0 := mkWorld _ _) in E.
  pose proof (handle_analyzer_results_outcome data w0) as Hout.
  pose proof (handle_analyzer_results_frame data w0) as (Hh & Ha & Hp & Ht & Hd & Hrs).
  destruct (__handle_analyzer_results data w0) as [[e|[]] w1]; simpl in *;
    rewrite <- Hout; simpl.
  { injection E as <- <-. rewrite Hh, Ha, Ht, Hrs. by split_and!. }
  unfold __handle_anonymizers, policy_map in *.
  destruct (d_anonymizers data) as [items|]; simpl in *.
  - pose proof (anonymizers_loop_spec items w1)
      as (Hr & Ha' & Hrs' & Ht' & Hd' & Hframe & Hne & Hok).
    rewrite Ha, Hh in Hr. simpl in Hr.
    destruct (anonymizers_loop items w1) as [[e|[]] w2]; simpl in *; rewrite <- Hr; simpl.
    { injection E as <- <-. rewrite Ha', Ht', Hrs', Ha, Ht, Hrs. split_and!; try done.
      - intros l k Hk. rewrite Hframe by done. by rewrite Hh.
      - intros l Hl. apply Hne. by rewrite Hh. }
    destruct (Hok eq_refl) as [Hmap Hrec]. rewrite Hp in Hmap.
    destruct (registry !! "replace") as [replace|] eqn:Hrep;
      injection E as <- <-; simpl.
    + rewrite Ha', Ht', Hrs', Ha, Ht, Hrs. split_and!; try done.
      * intros l k Hk. rewrite Hframe by done. by rewrite Hh.
      * intros l Hl. apply Hne. by rewrite Hh.
      * intros _. split_and!; [done| |by exists replace].
        intros key l [Hm|Hin]%foldl_insert_lookup; [done|]. by apply (Hrec key).
    + rewrite Ha', Ht', Hrs', Ha, Ht, Hrs. split_and!; try done.
      * intros l k Hk. rewrite Hframe by done. by rewrite Hh.
      * intros l Hl. apply Hne. by rewrite Hh.
  - destruct (registry !! "replace") as [replace|] eqn:Hrep;
      injection E as <- <-; simpl.
    + rewrite Ha, Ht, Hh, Hp, Hrs. split_and!; try done.
      intros _. split_and!; [done|done|by exists replace].
    + rewrite Ha, Ht, Hh, Hrs. by split_and!.
Qed.

(** ** Empty text, empty spans *)

(** C7: a request whose text field is absent or the empty string fails with
    the message [Invalid input, text can not be empty]; no span and no policy
    has been recorded at that point, the built-in default is unset and the
    policy objects of the caller are as they were.  Only the text attribute
    of the discarded request has been bound. *)
Theorem empty_text_fails data registry h :
  d_text data = VNone ∨ d_text data = VStr "" →
  new_request data registry h =
    (inl (InvalidParamException "Invalid input, text can not be empty"),
     mkWorld (mkRequest registry ∅ [] (Some (d_text data)) None) h).
Proof.
  intros Htext. rewrite new_request_unfold. unfold __validate_and_insert_input.
  rewrite !bind_run, handle_text_spec.
  by destruct Htext as [-> | ->].
Qed.

Lemma empty_text_fails_witness :
  new_request Sample.empty Sample.registry Sample.policies =
    (inl (InvalidParamException "Invalid input, text can not be empty"),
     mkWorld (mkRequest Sample.registry ∅ [] (Some VNone) None) Sample.policies).
Proof. apply (empty_text_fails Sample.empty). left. reflexivity. Defined.

(** C2 as it is stated: absent or empty spans always give [EmptySpans]. *)
Lemma empty_spans_not_always_EmptySpans :
  ¬ (∀ data registry h,
       d_analyzer_results data = VNone ∨ d_analyzer_results data = VList [] →
       (new_request data registry h).1 = inl EmptySpans).
Proof.
  intros H.
  specialize (H Sample.empty Sample.registry Sample.policies (or_introl eq_refl)).
  vm_compute in H. discriminate H.
Qed.

(** C2, amended: a request whose spans field is absent or an empty sequence
    fails with [EmptySpans] when its text is a non-empty string, and with
    [EmptyText] when its text is absent or empty: the text is checked
    first. *)
Theorem empty_spans_fail data registry h :
  d_analyzer_results data = VNone ∨ d_analyzer_results data = VList [] →
  (∀ s, d_text data = VStr s → s ≠ "" →
     (new_request data registry h).1 = inl EmptySpans) ∧
  (d_text data = VNone ∨ d_text data = VStr "" →
     (new_request data registry h).1 = inl EmptyText).
Proof.
  intros Hspans.
  destruct (new_request_spec data registry h) as (-> & _).
  unfold construction_outcome, results_outcome. split.
  - intros s -> Hs. simpl. apply String.eqb_neq in Hs as ->. simpl.
    by destruct Hspans as [-> | ->].
  - by intros [-> | ->].
Qed.

Lemma empty_spans_fail_witness :
  (new_request (mkData Sample.text (VList []) None) Sample.registry
     Sample.policies).1 = inl EmptySpans ∧
  (new_request Sample.empty Sample.registry Sample.policies).1 = inl EmptyText.
Proof.
  split.
  - apply (empty_spans_fail (mkData Sample.text (VList []) None)
             Sample.registry Sample.policies (or_intror eq_refl)) with "hello world";
      [reflexivity | discriminate].
  - apply (empty_spans_fail Sample.empty Sample.registry Sample.policies
             (or_introl eq_refl)). left. reflexivity.
Defined.

(** ** The registry must know [replace] *)

(** C10: when the registry has no kind [replace], no request is
    constructed: a request that passes validation, whatever policies its
    spans have, fails with [KeyError] on [replace]. *)
Theorem replace_required data registry h :
  registry !! "replace" = None →
  (new_request data registry h).1 ≠ inr tt ∧
  ((__validate_and_insert_input data (initial registry h)).1 = inr tt →
   (new_request data registry h).1 = inl (KeyError "replace")).
Proof.
  intros Hrep. rewrite new_request_unfold, bind_run, Hrep.
  destruct (__validate_and_insert_input data (initial registry h)) as [[e|[]] w];
    simpl; split; done.
Qed.

Lemma replace_required_witness :
  (new_request Sample.masked Sample.mask_only Sample.policies).1 =
    inl (KeyError "replace").
Proof.
  apply (replace_required Sample.masked Sample.mask_only Sample.policies);
    reflexivity.
Defined.

(** ** Span positions *)

Lemma validate_position_in_text_spec r text_len :
  validate_position_in_text r text_len =
    if decide (0 ≤ start r < end_ r ∧ end_ r ≤ text_len)%Z then inr tt
    else inl (OutOfBounds (start r) (end_ r) text_len).
Proof.
  unfold validate_position_in_text.
  destruct (Z.ltb_spec (start r) 0), (Z.gtb_spec (end_ r) text_len),
    (Z.geb_spec (start r) (end_ r)); simpl; case_decide; done || lia.
Qed.

Lemma validate_span_spec text_len v r :
  AnalyzerResult_new v = inr r →
  validate_span text_len v =
    if decide (0 ≤ start r < end_ r ∧ end_ r ≤ text_len)%Z then inr r
    else inl (OutOfBounds (start r) (end_ r) text_len).
Proof.
  intros Hv. unfold validate_span. rewrite Hv. unfold mbind, Exc_bind.
  rewrite validate_position_in_text_spec. by case_decide.
Qed.

Lemma spans_app text_len pre rs rest :
  Forall2 (λ v r, validate_span text_len v = inr r) pre rs →
  spans_outcome text_len (pre ++ rest) = spans_outcome text_len rest ∧
  recorded text_len (pre ++ rest) = (rs ++ recorded text_len rest)%list.
Proof.
  induction 1 as [|v r pre rs Hv _ [IH1 IH2]]; simpl; [done|].
  by rewrite Hv, IH1, IH2.
Qed.

(** C3: with the spans before it accepted, a span with [start < 0],
    [end > length(text)] or [start >= end] makes construction fail with the
    message [Invalid analyzer result, start: S and end: E, while text length
    is only L.], which carries both offsets and the text length; and when
    every span has [0 <= start < end <= length(text)], every span passes the
    position check and all of them are recorded, in order. *)
Theorem span_position_checked data registry h text_len :
  truthy (d_text data) = true →
  py_len (d_text data) = inr text_len →
  (∀ pre v post rs r,
     d_analyzer_results data = VList (pre ++ v :: post) →
     Forall2 (λ v r, validate_span text_len v = inr r) pre rs →
     AnalyzerResult_new v = inr r →
     (start r < 0 ∨ end_ r > text_len ∨ start r >= end_ r)%Z →
     (new_request data registry h).1 =
       inl (InvalidParamException
              ("Invalid analyzer result, start: " ++ str_of_int (start r) ++
               " and end: " ++ str_of_int (end_ r) ++
               ", while text length is only " ++ str_of_int text_len ++ "."))) ∧
  (∀ results rs,
     d_analyzer_results data = VList results → results ≠ [] →
     Forall2 (λ v r, AnalyzerResult_new v = inr r ∧
                     (0 ≤ start r < end_ r ∧ end_ r ≤ text_len)%Z) results rs →
     Forall (λ r, validate_position_in_text r text_len = inr tt) rs ∧
     (∀ w, (__handle_analyzer_results data w).1 = inr tt) ∧
     _analysis_results (self (new_request data registry h).2) = rs).
Proof.
  intros Htext Hlen.
  destruct (new_request_spec data registry h) as (Hout & _ & _ & Hrs & _).
  rewrite Htext in Hrs. split.
  - intros pre v post rs r Hspans Hpre Hv Hbad.
    rewrite Hout. unfold construction_outcome, results_outcome.
    rewrite Htext, Hspans, Hlen.
    replace (truthy (VList (pre ++ v :: post))) with true by by destruct pre.
    simpl. unfold mbind, Exc_bind.
    destruct (spans_app text_len pre rs (v :: post) Hpre) as [-> _]. simpl.
    rewrite (validate_span_spec text_len v r Hv).
    case_decide; [lia|done].
  - intros results rs Hspans Hne Hall.
    assert (Forall2 (λ v r, validate_span text_len v = inr r) results rs) as Hacc.
    { eapply list.Forall2_impl; [exact Hall|]. intros v r [Hv Hr]. simpl.
      rewrite (validate_span_spec text_len v r Hv). by case_decide. }
    destruct (spans_app text_len results rs [] Hacc) as [Hso Hrec].
    rewrite app_nil_r in Hso, Hrec. simpl in Hso, Hrec. rewrite app_nil_r in Hrec.
    assert (truthy (VList results) = true) as Htr by by destruct results.
    split_and!.
    + clear -Hall. induction Hall as [|v r vs rs [_ Hr] _ IH]; constructor; [|done].
      rewrite validate_position_in_text_spec. by case_decide.
    + intros w. rewrite handle_analyzer_results_outcome. unfold results_outcome.
      rewrite Hspans, Htr, Hlen. simpl. done.
    + rewrite Hrs. unfold data_recorded. rewrite Hspans, Htr, Hlen. simpl. done.
Qed.

Lemma span_position_checked_witness :
  (new_request Sample.out_of_bounds Sample.registry Sample.policies).1 =
    inl (InvalidParamException
           "Invalid analyzer result, start: 5 and end: 12, while text length is only 11.") ∧
  _analysis_results (self (new_request Sample.data Sample.registry Sample.policies).2) =
    [mkAnalyzerResult 6 11 (Some (VFloat (4 # 5))) "PHONE_NUMBER";
     mkAnalyzerResult 0 5 (Some (VFloat (4 # 5))) "NAME"].
Proof.
  split.
  - apply (proj1 (span_position_checked Sample.out_of_bounds Sample.registry
                    Sample.policies 11 eq_refl eq_refl)
             [Sample.span 0 5 "NAME"] (Sample.span 5 12 "NAME") []
             [mkAnalyzerResult 0 5 (Some (VFloat (4 # 5))) "NAME"]
             (mkAnalyzerResult 5 12 (Some (VFloat (4 # 5))) "NAME")).
    + reflexivity.
    + repeat constructor.
    + reflexivity.
    + simpl. lia.
  - apply (proj2 (span_position_checked Sample.data Sample.registry
                    Sample.policies 11 eq_refl eq_refl)
             [Sample.span 6 11 "PHONE_NUMBER"; Sample.span 0 5 "NAME"]).
    + reflexivity.
    + discriminate.
    + repeat constructor; simpl; lia.
Defined.

(** ** Policy kinds *)

Lemma policies_outcome_app registry h pre rest :
  policies_outcome registry h (pre ++ rest) =
    match policies_outcome registry h pre with
    | inr _ => policies_outcome registry h rest
    | inl e => inl e
    end.
Proof.
  induction pre as [|[key l] pre IH]; simpl; [done|].
  by destruct (class_of registry (h l)).
Qed.


Lemma policies_outcome_inr registry h items key l :
  policies_outcome registry h items = inr tt → (key, l) ∈ items →
  ∃ c, class_of registry (h l) = inr c.
Proof.
  induction items as [|[key' l'] items IH]; simpl.
  { by intros _ ?%elem_of_nil. }
  destruct (class_of registry (h l')) as [e'|c] eqn:Hc; [done|].
  intros Hout [[= -> ->]|Hin]%elem_of_cons; [by exists c|by apply IH].
Qed.

Lemma construction_outcome_policies data registry h items :
  truthy (d_text data) = true → results_outcome data = inr tt →
  d_anonymizers data = Some items →
  (new_request data registry h).1 =
    match policies_outcome registry h items with
    | inr _ =>
        match registry !! "replace" with
        | Some _ => inr tt
        | None => inl (KeyError "replace")
        end
    | inl e => inl e
    end.
Proof.
  intros Htext Hres Hitems.
  destruct (new_request_spec data registry h) as (-> & _).
  unfold construction_outcome. by rewrite Htext, Hres, Hitems.
Qed.



(** C9: a policy without the key [type] makes construction raise
    [AttributeError], which is not an [InvalidParamException], once the text,
    the spans and the policies before it have passed. *)
Theorem missing_type_attribute_error data registry h pre key l post :
  truthy (d_text data) = true → results_outcome data = inr tt →
  d_anonymizers data = Some (pre ++ (key, l) :: post)%list →
  policies_outcome registry h pre = inr tt →
  Dict.get "type" (h l) = None →
  (new_request data registry h).1 = inl AttributeError ∧
  ∀ err_msg, AttributeError ≠ InvalidParamException err_msg.
Proof.
  intros Htext Hres Hitems Hpre Htype. split; [|done].
  rewrite (construction_outcome_policies data registry h _ Htext Hres Hitems).
  rewrite policies_outcome_app, Hpre. simpl. unfold class_of. by rewrite Htype.
Qed.

Lemma missing_type_attribute_error_witness :
  (new_request Sample.no_type Sample.registry Sample.policies).1 =
    inl AttributeError.
Proof.
  apply (missing_type_attribute_error Sample.no_type Sample.registry
           Sample.policies [("DEFAULT", 0%nat)] "NAME" 2%nat []); reflexivity.
Defined.

(** ** Policy resolution *)

(** The assignment [dto["entity_type"] = entity_type]: what it changes. *)
Lemma set_item_cases r key v w :
  match r with
  | Supplied l =>
      set_item r key v w =
        (inr tt, mkWorld (self w) (<[l := Dict.set key v (heap w l)]> (heap w)))
  | BuiltinDefault =>
      match default_anonymizer (self w) with
      | Some d =>
          set_item r key v w =
            (inr tt, mkWorld (with_default (Dict.set key v d) (self w)) (heap w))
      | None => set_item r key v w = (inl AttributeError, w)
      end
  end.
Proof. destruct r; simpl; [done|]. by destruct (default_anonymizer (self w)). Qed.

(** Resolution picks a policy and tags it; nothing else happens. *)
Lemma get_anonymizer_dto_set_item entity_type w :
  ∃ r,
    get_anonymizer_dto entity_type w =
      match set_item r "entity_type" (VStr entity_type) w with
      | (inl e, w') => (inl e, w')
      | (inr _, w') => (inr r, w')
      end.
Proof.
  unfold get_anonymizer_dto. rewrite bind_run. unfold lookup_dto at 1.
  destruct (_anonymizers (self w) !! entity_type) as [l|] eqn:Hl;
    [destruct (truthy (VDict (heap w l)))|].
  1: by exists (Supplied l).
  all: rewrite !bind_run; unfold lookup_dto;
    (destruct (_anonymizers (self w) !! "DEFAULT") as [l'|] eqn:Hl';
       [destruct (truthy (VDict (heap w l')))|]);
    (by exists (Supplied l')) || (by exists BuiltinDefault).
Qed.

(** On a store whose recorded policies are not empty dictionaries and whose
    built-in default is bound, resolution follows the three tiers. *)
Lemma get_anonymizer_dto_spec entity_type w d :
  default_anonymizer (self w) = Some d →
  (∀ key l, _anonymizers (self w) !! key = Some l → heap w l ≠ []) →
  get_anonymizer_dto entity_type w =
    (inr (three_tier (_anonymizers (self w)) entity_type),
     match three_tier (_anonymizers (self w)) entity_type with
     | Supplied l =>
         mkWorld (self w)
           (<[l := Dict.set "entity_type" (VStr entity_type) (heap w l)]> (heap w))
     | BuiltinDefault =>
         mkWorld (with_default (Dict.set "entity_type" (VStr entity_type) d) (self w))
                 (heap w)
     end).
Proof.
  intros Hd Hne.
  assert (∀ key l, _anonymizers (self w) !! key = Some l →
            truthy (VDict (heap w l)) = true) as Htr.
  { intros key l Hl%Hne. simpl. by destruct (heap w l). }
  unfold get_anonymizer_dto, three_tier. rewrite bind_run. unfold lookup_dto at 1.
  destruct (_anonymizers (self w) !! entity_type) as [l|] eqn:Hl.
  { by rewrite (Htr _ _ Hl). }
  rewrite !bind_run. unfold lookup_dto.
  destruct (_anonymizers (self w) !! "DEFAULT") as [l'|] eqn:Hl'.
  { by rewrite (Htr _ _ Hl'). }
  simpl. rewrite bind_run. unfold set_item. by rewrite Hd.
Qed.

(** What holds of every store a request goes through. *)
Lemma reachable_invariant data registry h w :
  reachable data registry h w →
  _anonymizers (self w) = policy_map data ∧
  (∀ key l, policy_map data !! key = Some l → heap w l ≠ []) ∧
  ∃ d replace,
    default_anonymizer (self w) = Some d ∧
    Dict.get "type" d = Some (VStr "replace") ∧
    registry !! "replace" = Some replace ∧
    Dict.get "anonymizer" d = Some (VClass replace).
Proof.
  induction 1 as [w Hnew|w entity_type r w' _ (Hmap & Hne & d & c & Hd & Ht & Hc & Ha) Hget].
  - pose proof (new_request_spec data registry h) as (Hr & _ & _ & _ & _ & _ & Hok).
    rewrite Hnew in Hr, Hok. simpl in Hr, Hok.
    destruct (Hok eq_refl) as (Hmap & Hne & c & Hc & Hd).
    split_and!; [done..|]. by exists [("type", VStr "replace"); ("anonymizer", VClass c)], c.
  - rewrite (get_anonymizer_dto_spec entity_type w d Hd) in Hget
      by (rewrite Hmap; exact Hne).
    injection Hget as _ <-.
    destruct (three_tier (_anonymizers (self w)) entity_type) as [l|]; simpl.
    + split_and!; [done| |by exists d, c].
      intros key l' Hl'. destruct (decide (l = l')) as [->|Hll].
      * rewrite fn_lookup_insert. apply dict_set_nonempty.
      * rewrite fn_lookup_insert_ne by done. by apply (Hne key).
    + split_and!; [done..|].
      exists (Dict.set "entity_type" (VStr entity_type) d), c.
      by rewrite !dict_get_set_ne.
Qed.

(** C1: on a constructed request, [get_anonymizer_dto] returns the entry of
    the policy map under the label when there is one, else the entry under
    [DEFAULT] when there is one, else the built-in default, whose kind is
    [replace] and whose class is the registry's [replace]; the policy it
    returns is the one chosen with the label in its field [entity_type];
    without a policy map every label gets the built-in default. *)
Theorem get_anonymizer_dto_three_tier data registry h w label :
  reachable data registry h w →
  ∃ r d w',
    r = match policy_map data !! label with
        | Some l => Supplied l
        | None =>
            match policy_map data !! "DEFAULT" with
            | Some l => Supplied l
            | None => BuiltinDefault
            end
        end ∧
    get_anonymizer_dto label w = (inr r, w') ∧
    deref w r = Some d ∧
    deref w' r = Some (Dict.set "entity_type" (VStr label) d) ∧
    Dict.get "entity_type" (Dict.set "entity_type" (VStr label) d) =
      Some (VStr label) ∧
    (r = BuiltinDefault →
       Dict.get "type" d = Some (VStr "replace") ∧
       ∃ replace, registry !! "replace" = Some replace ∧
                  Dict.get "anonymizer" d = Some (VClass replace)) ∧
    (d_anonymizers data = None → r = BuiltinDefault).
Proof.
  intros (Hmap & Hne & d & c & Hd & Ht & Hc & Ha)%reachable_invariant.
  pose proof (get_anonymizer_dto_spec label w d Hd) as Hget.
  rewrite Hmap in Hget. specialize (Hget Hne). unfold three_tier in Hget.
  assert (d_anonymizers data = None → policy_map data = ∅) as Hnone.
  { unfold policy_map. by intros ->. }
  destruct (policy_map data !! label) as [l|] eqn:Hl;
    [|destruct (policy_map data !! "DEFAULT") as [l|] eqn:Hl'].
  - eexists (Supplied l), (heap w l), _.
    split_and!; [done|exact Hget|done|simpl; by rewrite fn_lookup_insert
                |apply dict_get_set_eq|done|].
    intros Hn%Hnone. by rewrite Hn in Hl.
  - eexists (Supplied l), (heap w l), _.
    split_and!; [done|exact Hget|done|simpl; by rewrite fn_lookup_insert
                |apply dict_get_set_eq|done|].
    intros Hn%Hnone. by rewrite Hn in Hl'.
  - eexists BuiltinDefault, d, _.
    split_and!; [done|exact Hget|done|done|apply dict_get_set_eq| |done].
    intros _. split; [done|]. by exists c.
Qed.

Lemma sample_reachable :
  reachable Sample.data Sample.registry Sample.policies
    (new_request Sample.data Sample.registry Sample.policies).2.
Proof. apply reachable_new. reflexivity. Defined.

Lemma get_anonymizer_dto_three_tier_witness :
  ∃ r d w',
    r = Supplied 0 ∧
    get_anonymizer_dto "NAME"
      (new_request Sample.data Sample.registry Sample.policies).2 = (inr r, w') ∧
    deref (new_request Sample.data Sample.registry Sample.policies).2 r = Some d ∧
    deref w' r = Some (Dict.set "entity_type" (VStr "NAME") d).
Proof.
  destruct (get_anonymizer_dto_three_tier Sample.data Sample.registry
              Sample.policies _ "NAME" sample_reachable)
    as (r & d & w' & Hr & Hget & Hd & Hd' & _).
  exists r, d, w'. split_and!; done.
Defined.

(** C6: on a constructed request, resolving a label twice returns the same
    policy object, and its value after the second call is its value after
    the first; the second call leaves every policy as the first left it. *)
Theorem get_anonymizer_dto_idempotent data registry h w label :
  reachable data registry h w →
  ∃ r w1 w2,
    get_anonymizer_dto label w = (inr r, w1) ∧
    get_anonymizer_dto label w1 = (inr r, w2) ∧
    deref w2 r = deref w1 r ∧
    (∀ r', deref w2 r' = deref w1 r').
Proof.
  intros Hw.
  destruct (reachable_invariant _ _ _ _ Hw) as (Hmap & Hne & d & c & Hd & _).
  pose proof (get_anonymizer_dto_spec label w d Hd) as Hget.
  rewrite Hmap in Hget. specialize (Hget Hne).
  destruct (three_tier (policy_map data) label) as [l|] eqn:Hr.
  - set (w1 := mkWorld _ _) in Hget.
    assert (reachable data registry h w1) as Hw1 by by eapply reachable_get.
    destruct (reachable_invariant _ _ _ _ Hw1) as (Hmap1 & Hne1 & d1 & c1 & Hd1 & _).
    pose proof (get_anonymizer_dto_spec label w1 d1 Hd1) as Hget1.
    rewrite Hmap1, Hr in Hget1. specialize (Hget1 Hne1).
    eexists (Supplied l), w1, _. split; [exact Hget|]. split; [exact Hget1|].
    assert (∀ r', deref (mkWorld (self w1)
              (<[l := Dict.set "entity_type" (VStr label) (heap w1 l)]> (heap w1))) r' =
              deref w1 r') as Hsame; [|by split].
    intros [l'|]; simpl; [|done]. destruct (decide (l = l')) as [->|Hll].
    + by rewrite !fn_lookup_insert, dict_set_set.
    + by rewrite !fn_lookup_insert_ne.
  - set (w1 := mkWorld _ _) in Hget.
    assert (reachable data registry h w1) as Hw1 by by eapply reachable_get.
    destruct (reachable_invariant _ _ _ _ Hw1) as (Hmap1 & Hne1 & d1 & c1 & Hd1 & _).
    pose proof (get_anonymizer_dto_spec label w1 d1 Hd1) as Hget1.
    rewrite Hmap1, Hr in Hget1. specialize (Hget1 Hne1).
    eexists BuiltinDefault, w1, _. split; [exact Hget|]. split; [exact Hget1|].
    assert (∀ r', deref (mkWorld
              (with_default (Dict.set "entity_type" (VStr label) d1) (self w1))
              (heap w1)) r' = deref w1 r') as Hsame; [|by split].
    simpl in Hd1. injection Hd1 as <-.
    intros [l'|]; simpl; [done|]. by rewrite dict_set_set.
Qed.

Lemma get_anonymizer_dto_idempotent_witness :
  ∃ r w1 w2,
    get_anonymizer_dto "PHONE_NUMBER"
      (new_request Sample.data Sample.registry Sample.policies).2 = (inr r, w1) ∧
    get_anonymizer_dto "PHONE_NUMBER" w1 = (inr r, w2) ∧
    deref w2 r = deref w1 r.
Proof.
  destruct (get_anonymizer_dto_idempotent Sample.data Sample.registry
              Sample.policies _ "PHONE_NUMBER" sample_reachable)
    as (r & w1 & w2 & H1 & H2 & H3 & _).
  by exists r, w1, w2.
Defined.

(** ** What happens to the policies of the caller *)

(** C5 as it is stated: resolution leaves every policy of the map as it
    was. *)
Lemma get_anonymizer_dto_changes_policy :
  ¬ (∀ data registry h w label key l,
       reachable data registry h w →
       _anonymizers (self w) !! key = Some l →
       heap (get_anonymizer_dto label w).2 l = heap w l).
Proof.
  intros H.
  specialize (H Sample.data Sample.registry Sample.policies _ "PHONE_NUMBER"
                "PHONE_NUMBER" 1%nat sample_reachable eq_refl).
  vm_compute in H. discriminate H.
Qed.

(** ** The cases of the test suite *)

Example test_no_text :
  (new_request Sample.empty Sample.registry Sample.policies).1 =
    inl (InvalidParamException "Invalid input, text can not be empty").
Proof. reflexivity. Qed.

Example test_unknown_class :
  (new_request
     (mkData Sample.jane (VList [Sample.span 28 32 "NUMBER"]) (Some [("default", 3%nat)]))
     Sample.registry Sample.policies).1 =
    inl (InvalidParamException "Invalid anonymizer class 'none'.").
Proof. reflexivity. Qed.

Example test_no_start :
  (new_request Sample.no_start Sample.registry Sample.policies).1 =
    inl (InvalidParamException "Invalid input, analyzer result must contain start").
Proof. reflexivity. Qed.

Example test_no_analyzer_results :
  (new_request (mkData Sample.jane VNone None) Sample.registry Sample.policies).1 =
    inl (InvalidParamException "Invalid input, analyzer results can not be empty").
Proof. reflexivity. Qed.

Example test_positions :
  (new_request (mkData Sample.text (VList [Sample.span 12 16 "NAME"]) None)
     Sample.registry Sample.policies).1 =
    inl (InvalidParamException
           "Invalid analyzer result, start: 12 and end: 16, while text length is only 11.").
Proof. reflexivity. Qed.

(** Without a policy map a label gets the built-in default, tagged. *)
Example no_policies_default :
  let w := (new_request Sample.no_policies Sample.registry Sample.policies).2 in
  (get_anonymizer_dto "NAME" w).1 = inr BuiltinDefault ∧
  deref (get_anonymizer_dto "NAME" w).2 BuiltinDefault =
    Some [("type", VStr "replace"); ("anonymizer", VClass "Replace");
          ("entity_type", VStr "NAME")].
Proof. split; reflexivity. Qed.

(** * Further properties of the request *)

(** ** When construction succeeds *)

Lemma class_of_inr registry d c :
  class_of registry d = inr c ↔
  ∃ type, Dict.get "type" d = Some (VStr type) ∧ registry !! lower type = Some c.
Proof.
  unfold class_of. split.
  - destruct (Dict.get "type" d) as [[]|]; try done.
    destruct (registry !! lower s) eqn:Hs; [|done]. intros [= <-]. by exists s.
  - intros (type & -> & ->). done.
Qed.

Lemma policies_outcome_all registry h items :
  (∀ key l, (key, l) ∈ items → ∃ c, class_of registry (h l) = inr c) →
  policies_outcome registry h items = inr tt.
Proof.
  induction items as [|[key l] items IH]; intros Hall; simpl; [done|].
  destruct (Hall key l) as [c ->]; [by left|].
  apply IH. intros key' l' Hin. apply (Hall key'). by right.
Qed.

(** The conditions of a successful construction. *)
Lemma construction_succeeds data registry h :
  (new_request data registry h).1 = inr tt ↔
  truthy (d_text data) = true ∧
  results_outcome data = inr tt ∧
  (∀ items key l,
     d_anonymizers data = Some items → (key, l) ∈ items →
     ∃ type anonymizer,
       Dict.get "type" (h l) = Some (VStr type) ∧
       registry !! lower type = Some anonymizer) ∧
  is_Some (registry !! "replace").
Proof.
  destruct (new_request_spec data registry h) as (-> & _).
  unfold construction_outcome. split.
  - destruct (truthy (d_text data)); [|done].
    destruct (results_outcome data) as [e|[]]; [done|]. simpl.
    destruct (d_anonymizers data) as [items|] eqn:Hitems; simpl.
    + destruct (policies_outcome registry h items) as [e|[]] eqn:Hout; [done|]. simpl.
      destruct (registry !! "replace") eqn:Hrep; [|done]. intros _.
      split_and!; [done..| |by eexists].
      intros items' key l [= <-] Hin.
      destruct (policies_outcome_inr registry h items key l Hout Hin) as [c Hc].
      apply class_of_inr in Hc as (type & Ht & Hc). by exists type, c.
    + destruct (registry !! "replace") eqn:Hrep; [|done]. intros _.
      split_and!; [done..| |by eexists]. intros items' key l [=].
  - intros (-> & -> & Hall & [c ->]). simpl.
    destruct (d_anonymizers data) as [items|] eqn:Hitems; simpl; [|done].
    rewrite policies_outcome_all; [done|].
    intros key l Hin. destruct (Hall items key l eq_refl Hin) as (type & c' & Ht & Hc).
    exists c'. apply class_of_inr. by exists type.
Qed.

(** X7: construction succeeds exactly when the text is truthy, the spans
    pass, every policy declares a [str] kind whose lowercase is registered,
    and the registry knows [replace]. *)
Theorem new_request_succeeds_iff data registry h :
  (new_request data registry h).1 = inr tt ↔
  truthy (d_text data) = true ∧
  results_outcome data = inr tt ∧
  (∀ items key l,
     d_anonymizers data = Some items → (key, l) ∈ items →
     ∃ type anonymizer,
       Dict.get "type" (h l) = Some (VStr type) ∧
       registry !! lower type = Some anonymizer) ∧
  is_Some (registry !! "replace").
Proof. apply construction_succeeds. Qed.

Lemma new_request_succeeds_iff_witness :
  (new_request Sample.data Sample.registry Sample.policies).1 = inr tt.
Proof.
  apply (new_request_succeeds_iff Sample.data Sample.registry Sample.policies).
  split_and!; [reflexivity..| |by eexists].
  intros items key l [= <-] Hin.
  apply elem_of_cons in Hin as [[= -> ->]|Hin]; [by eexists _, _|].
  apply elem_of_cons in Hin as [[= -> ->]|Hin]; [by eexists _, _|].
  by apply elem_of_nil in Hin.
Defined.

(** ** The accessors *)

Lemma get_anonymizer_dto_frame label w :
  let w' := (get_anonymizer_dto label w).2 in
  anonymizers (self w') = anonymizers (self w) ∧
  _text (self w') = _text (self w) ∧
  _analysis_results (self w') = _analysis_results (self w) ∧
  (∀ l k, k ≠ "entity_type" → Dict.get k (heap w' l) = Dict.get k (heap w l)).
Proof.
  destruct (get_anonymizer_dto_set_item label w) as [r ->].
  pose proof (set_item_cases r "entity_type" (VStr label) w) as Hset.
  destruct r as [l'|]; [|destruct (default_anonymizer (self w))];
    rewrite Hset; simpl; split_and!; try done.
  intros l k Hk. destruct (decide (l' = l)) as [->|Hll].
  - by rewrite fn_lookup_insert, dict_get_set_ne.
  - by rewrite fn_lookup_insert_ne.
Qed.

(** What a request keeps through its resolutions. *)
Lemma reachable_fields data registry h w :
  reachable data registry h w →
  (new_request data registry h).1 = inr tt ∧
  anonymizers (self w) = registry ∧
  _text (self w) = Some (d_text data) ∧
  _analysis_results (self w) = data_recorded data ∧
  (∀ l k, k ≠ "anonymizer" → k ≠ "entity_type" →
          Dict.get k (heap w l) = Dict.get k (h l)).
Proof.
  induction 1 as [w Hnew|w label r w' _ (Hok & Ha & Ht & Hrs & Hframe) Hget].
  - pose proof (new_request_spec data registry h)
      as (Hr & Ha & Ht & Hrs & Hframe & _).
    rewrite Hnew in Hr, Ha, Ht, Hrs, Hframe. simpl in *.
    assert (truthy (d_text data) = true) as Htr.
    { unfold construction_outcome in Hr. by destruct (truthy (d_text data)). }
    rewrite Htr in Hrs. split_and!; try done.
    + by rewrite Hnew.
    + intros l k Hk _. by apply Hframe.
  - pose proof (get_anonymizer_dto_frame label w) as (Ha' & Ht' & Hrs' & Hframe').
    rewrite Hget in Ha', Ht', Hrs', Hframe'. simpl in *.
    split_and!; [done|congruence..|].
    intros l k Hk1 Hk2. rewrite Hframe' by done. by apply Hframe.
Qed.

(** X1: on a constructed request, also after any number of resolutions,
    [get_text] returns the text the request was built from, which is
    truthy, and changes nothing. *)
Theorem get_text_returns_text data registry h w :
  reachable data registry h w →
  get_text w = (inr (Some (d_text data)), w) ∧ truthy (d_text data) = true.
Proof.
  intros (Hok & _ & Ht & _)%reachable_fields.
  apply construction_succeeds in Hok as (Htr & _).
  split; [|done]. unfold get_text. rewrite bind_run. simpl. by rewrite Ht.
Qed.

Lemma get_text_returns_text_witness :
  get_text (new_request Sample.data Sample.registry Sample.policies).2 =
    (inr (Some Sample.text),
     (new_request Sample.data Sample.registry Sample.policies).2).
Proof.
  apply (get_text_returns_text Sample.data Sample.registry Sample.policies _
           sample_reachable).
Defined.

Lemma spans_outcome_recorded text_len results :
  spans_outcome text_len results = inr tt →
  Forall2 (λ v r, validate_span text_len v = inr r) results
          (recorded text_len results).
Proof.
  induction results as [|v results IH]; simpl; [constructor|].
  destruct (validate_span text_len v) as [e|r] eqn:Hv; [done|].
  intros Hout. constructor; [done|by apply IH].
Qed.

(** X2: on a constructed request, [get_analysis_results] returns one span
    for each element of [analyzer_results], in the order of the input, each
    the validated form of its element; there is at least one, and nothing is
    changed. *)
Theorem get_analysis_results_in_order data registry h w :
  reachable data registry h w →
  ∃ text_len results rs,
    py_len (d_text data) = inr text_len ∧
    py_iter (d_analyzer_results data) = inr results ∧
    get_analysis_results w = (inr rs, w) ∧
    Forall2 (λ v r, validate_span text_len v = inr r) results rs ∧
    length rs = length results ∧
    rs ≠ [].
Proof.
  intros (Hok & _ & _ & Hrs & _)%reachable_fields.
  apply construction_succeeds in Hok as (_ & Hres & _).
  unfold results_outcome in Hres. unfold data_recorded in Hrs.
  destruct (truthy (d_analyzer_results data)) eqn:Htr; [|done].
  destruct (py_len (d_text data)) as [e|text_len]; [done|].
  destruct (py_iter (d_analyzer_results data)) as [e|results] eqn:Hit; [done|].
  simpl in Hres. apply spans_outcome_recorded in Hres.
  exists text_len, results, (recorded text_len results).
  split_and!; try done.
  - unfold get_analysis_results. rewrite bind_run. simpl. by rewrite Hrs.
  - symmetry. by eapply Forall2_length.
  - destruct results as [|v results];
      [|intros Hnil; rewrite Hnil in Hres; inversion Hres].
    exfalso. destruct (d_analyzer_results data) as [| | | | s | l | d |]; try done;
      simpl in Hit, Htr; injection Hit as Hit.
    + by destruct s.
    + by subst l.
    + by destruct d.
Qed.

Lemma get_analysis_results_in_order_witness :
  ∃ rs,
    get_analysis_results (new_request Sample.data Sample.registry Sample.policies).2 =
      (inr rs, (new_request Sample.data Sample.registry Sample.policies).2) ∧
    length rs = 2%nat.
Proof.
  destruct (get_analysis_results_in_order Sample.data Sample.registry
              Sample.policies _ sample_reachable)
    as (text_len & results & rs & _ & Hit & Hget & _ & Hlen & _).
  exists rs. split; [done|]. rewrite Hlen. by injection Hit as <-.
Defined.

(** ** Construction up to the policies *)

Lemma handle_analyzer_results_spec data w :
  __handle_analyzer_results data w =
    (results_outcome data,
     mkWorld (mkRequest (anonymizers (self w)) (_anonymizers (self w))
                (_analysis_results (self w) ++ data_recorded data)
                (_text (self w)) (default_anonymizer (self w)))
             (heap w)).
Proof.
  destruct w as [[a p rs t d] h].
  unfold __handle_analyzer_results, results_outcome, data_recorded. unfold_monad.
  unfold mbind, Exc_bind. simpl.
  destruct (truthy _); simpl; [|by rewrite app_nil_r].
  destruct (py_len _); simpl; [by rewrite app_nil_r|].
  destruct (py_iter _); simpl; [by rewrite app_nil_r|].
  by rewrite analyzer_results_loop_spec.
Qed.

Lemma new_request_policies data registry h :
  truthy (d_text data) = true →
  new_request data registry h =
    match results_outcome data with
    | inl e =>
        (inl e,
         mkWorld (mkRequest registry ∅ (data_recorded data) (Some (d_text data)) None) h)
    | inr _ =>
        match __handle_anonymizers data
                (mkWorld (mkRequest registry ∅ (data_recorded data)
                            (Some (d_text data)) None) h) with
        | (inl e, w') => (inl e, w')
        | (inr _, w') =>
            match registry !! "replace" with
            | Some replace =>
                (inr tt,
                 mkWorld (with_default [("type", VStr "replace");
                                        ("anonymizer", VClass replace)] (self w'))
                         (heap w'))
            | None => (inl (KeyError "replace"), w')
            end
        end
    end.
Proof.
  intros Htext. rewrite new_request_unfold. unfold __validate_and_insert_input.
  rewrite !bind_run, handle_text_spec, Htext, bind_run, handle_analyzer_results_spec.
  simpl. destruct (results_outcome data) as [e|[]]; [done|].
  destruct (__handle_anonymizers data _) as [[e|[]] w']; [done|].
  by destruct (registry !! "replace").
Qed.

(** X4: with a truthy text, an exception of the spans is the outcome of
    construction whatever the policies and the registry are, and it leaves
    the policy objects of the caller as they were and no policy recorded. *)
Theorem span_errors_come_first data registry h e :
  truthy (d_text data) = true →
  results_outcome data = inl e →
  (new_request data registry h).1 = inl e ∧
  heap (new_request data registry h).2 = h ∧
  _anonymizers (self (new_request data registry h).2) = ∅.
Proof.
  intros Htext Hres. by rewrite (new_request_policies data registry h Htext), Hres.
Qed.

Lemma span_errors_come_first_witness :
  (new_request
     (mkData Sample.text (VList [Sample.span 5 12 "NAME"])
             (Some [("NAME", 3%nat)])) Sample.mask_only Sample.policies).1 =
    inl (OutOfBounds 5 12 11).
Proof.
  apply (span_errors_come_first
           (mkData Sample.text (VList [Sample.span 5 12 "NAME"])
                   (Some [("NAME", 3%nat)])) Sample.mask_only Sample.policies);
    reflexivity.
Defined.

(** ** The loop over the policies, again *)

Lemma anonymizers_loop_app pre rest w :
  anonymizers_loop (pre ++ rest) w =
    match anonymizers_loop pre w with
    | (inl e, w') => (inl e, w')
    | (inr _, w') => anonymizers_loop rest w'
    end.
Proof.
  revert w. induction pre as [|[key l] pre IH]; intros w; simpl.
  { by destruct (anonymizers_loop rest w) as [[e|[]] w']. }
  unfold_monad. rewrite get_anonymizer_spec.
  destruct (class_of (anonymizers (self w)) (heap w l)); simpl; [done|].
  apply IH.
Qed.

(** The loop writes to the policies it goes over, and to no other. *)
Lemma anonymizers_loop_untouched items w l :
  (∀ key, (key, l) ∉ items) →
  heap (anonymizers_loop items w).2 l = heap w l.
Proof.
  revert w. induction items as [|[key l'] items IH]; intros w Hnot; simpl; [done|].
  unfold_monad. rewrite get_anonymizer_spec.
  destruct (class_of (anonymizers (self w)) (heap w l')); simpl; [done|].
  rewrite IH.
  - simpl. apply fn_lookup_insert_ne. intros ->. apply (Hnot key). by left.
  - intros key' Hin. apply (Hnot key'). by right.
Qed.

(** The loop puts the class of its kind into every policy it passes, and a
    policy that carries the class of its kind keeps it. *)
Lemma anonymizers_loop_installed items w :
  let w' := (anonymizers_loop items w).2 in
  (∀ l c, class_of (anonymizers (self w)) (heap w l) = inr c →
          Dict.get "anonymizer" (heap w l) = Some (VClass c) →
          Dict.get "anonymizer" (heap w' l) = Some (VClass c)) ∧
  ((anonymizers_loop items w).1 = inr tt →
   ∀ key l, (key, l) ∈ items →
     ∃ c, class_of (anonymizers (self w)) (heap w l) = inr c ∧
          Dict.get "anonymizer" (heap w' l) = Some (VClass c)).
Proof.
  revert w. induction items as [|[key l0] items IH]; intros w; simpl.
  { split; [done|]. intros _ key l Hin. by apply elem_of_nil in Hin. }
  unfold_monad. rewrite get_anonymizer_spec.
  destruct (class_of (anonymizers (self w)) (heap w l0)) as [e|c0] eqn:Hc0; simpl;
    [done|].
  set (w1 := mkWorld _ _). destruct (IH w1) as [IH1 IH2].
  assert (∀ l, class_of (anonymizers (self w)) (heap w1 l) =
               class_of (anonymizers (self w)) (heap w l)) as Hclass.
  { intros l. apply class_of_get_type. subst w1. simpl.
    destruct (decide (l0 = l)) as [->|Hl].
    - by rewrite fn_lookup_insert, dict_get_set_ne.
    - by rewrite fn_lookup_insert_ne. }
  assert (Dict.get "anonymizer" (heap w1 l0) = Some (VClass c0)) as Hhead.
  { subst w1. simpl. by rewrite fn_lookup_insert, dict_get_set_eq. }
  split.
  - intros l c Hc Ha. apply IH1; [by rewrite Hclass|].
    destruct (decide (l0 = l)) as [->|Hl].
    + rewrite Hc in Hc0. by injection Hc0 as ->.
    + subst w1. simpl. by rewrite fn_lookup_insert_ne.
  - intros Hok key' l [[= -> ->]|Hin]%elem_of_cons.
    + exists c0. split; [done|]. apply IH1; [by rewrite Hclass|done].
    + destruct (IH2 Hok key' l Hin) as (c & Hc & Ha).
      exists c. split; [by rewrite <- Hclass|done].
Qed.

(** X5: a policy that does not resolve stops construction with its own
    exception, once the text, the spans and the policies before it have
    passed; by then those policies carry their class in [anonymizer], and
    the policy objects the loop has not reached are as they were. *)
Theorem policy_error_partial_effect data registry h pre key l post e :
  truthy (d_text data) = true → results_outcome data = inr tt →
  d_anonymizers data = Some (pre ++ (key, l) :: post)%list →
  policies_outcome registry h pre = inr tt →
  class_of registry (h l) = inl e →
  (new_request data registry h).1 = inl e ∧
  (∀ key' l', (key', l') ∈ pre →
     ∃ c, class_of registry (h l') = inr c ∧
          Dict.get "anonymizer" (heap (new_request data registry h).2 l') =
            Some (VClass c)) ∧
  (∀ l', (∀ key', (key', l') ∉ pre) → heap (new_request data registry h).2 l' = h l').
Proof.
  intros Htext Hres Hitems Hpre Hl.
  rewrite (new_request_policies data registry h Htext), Hres.
  unfold __handle_anonymizers. rewrite Hitems, anonymizers_loop_app.
  set (w1 := mkWorld _ _).
  pose proof (anonymizers_loop_spec pre w1) as (Hr & Ha & _ & _ & _ & Hframe & _).
  pose proof (anonymizers_loop_installed pre w1) as [_ Hinst].
  pose proof (anonymizers_loop_untouched pre w1) as Hun.
  simpl in Hr. rewrite Hpre in Hr.
  destruct (anonymizers_loop pre w1) as [[e'|[]] w2]; simpl in *; [done|].
  unfold_monad. rewrite get_anonymizer_spec, Ha.
  rewrite (class_of_get_type registry (h l) (heap w2 l)) by by apply Hframe.
  rewrite Hl. simpl. split_and!; [done| |done].
  intros key' l' Hin. by apply (Hinst eq_refl key').
Qed.

Lemma policy_error_partial_effect_witness :
  (new_request Sample.unknown_kind Sample.registry Sample.policies).1 =
    inl (UnknownPolicyKind "none") ∧
  Dict.get "anonymizer"
    (heap (new_request Sample.unknown_kind Sample.registry Sample.policies).2 0%nat) =
    Some (VClass "Replace").
Proof.
  destruct (policy_error_partial_effect Sample.unknown_kind Sample.registry
              Sample.policies [("DEFAULT", 0%nat)] "NAME" 3%nat []
              (UnknownPolicyKind "none") eq_refl eq_refl eq_refl eq_refl eq_refl)
    as (Hout & Hpre & _).
  split; [done|].
  destruct (Hpre "DEFAULT" 0%nat) as (c & Hc & Ha); [by left|].
  by injection Hc as <-.
Defined.

(** X3: on a constructed request, also after any number of resolutions,
    every policy of the policy map is recorded under its label and carries,
    in its field [anonymizer], the class the registry holds for its
    lowercased kind; its [type] is as the caller gave it. *)
Theorem policies_carry_their_class data registry h w key l :
  reachable data registry h w →
  policy_map data !! key = Some l →
  _anonymizers (self w) !! key = Some l ∧
  ∃ type anonymizer,
    Dict.get "type" (h l) = Some (VStr type) ∧
    Dict.get "type" (heap w l) = Some (VStr type) ∧
    registry !! lower type = Some anonymizer ∧
    Dict.get "anonymizer" (heap w l) = Some (VClass anonymizer).
Proof.
  intros Hw Hkey.
  destruct (reachable_invariant _ _ _ _ Hw) as (-> & _). split; [done|].
  apply policy_map_elem_of in Hkey as (items & Hitems & Hin).
  induction Hw as [w Hnew|w label r w' _ IH Hget].
  - assert ((new_request data registry h).1 = inr tt) as Hok by by rewrite Hnew.
    apply construction_succeeds in Hok as (Htext & Hres & _).
    rewrite (new_request_policies data registry h Htext), Hres in Hnew.
    unfold __handle_anonymizers in Hnew. rewrite Hitems in Hnew.
    set (w1 := mkWorld _ _) in Hnew.
    pose proof (anonymizers_loop_installed items w1) as [_ Hinst].
    pose proof (anonymizers_loop_spec items w1) as (_ & _ & _ & _ & _ & Hframe & _).
    destruct (anonymizers_loop items w1) as [[e|[]] w2]; [done|].
    destruct (registry !! "replace"); [|done]. injection Hnew as <-. simpl in *.
    destruct (Hinst eq_refl key l Hin) as (c & Hc & Ha).
    apply class_of_inr in Hc as (type & Ht & Hc).
    exists type, c. split_and!; try done. by rewrite Hframe.
  - destruct IH as (type & c & Ht & Ht' & Hc & Ha).
    pose proof (get_anonymizer_dto_frame label w) as (_ & _ & _ & Hframe).
    rewrite Hget in Hframe. simpl in Hframe.
    exists type, c. split_and!; try done; by rewrite Hframe.
Qed.

Lemma policies_carry_their_class_witness :
  ∃ type anonymizer,
    Dict.get "type" (Sample.policies 1%nat) = Some (VStr type) ∧
    Sample.registry !! lower type = Some anonymizer ∧
    Dict.get "anonymizer"
      (heap (new_request Sample.data Sample.registry Sample.policies).2 1%nat) =
      Some (VClass anonymizer).
Proof.
  destruct (policies_carry_their_class Sample.data Sample.registry Sample.policies
              _ "PHONE_NUMBER" 1%nat sample_reachable eq_refl)
    as (_ & type & c & Ht & _ & Hc & Ha).
  by exists type, c.
Defined.

(** X6: two labels without a policy of their own resolve to one and the
    same policy object, and the second resolution overwrites the tag of the
    first: the policy handed out for the first label then carries the
    second label in [entity_type]. *)
Theorem fallback_policy_is_shared data registry h w a b :
  reachable data registry h w →
  policy_map data !! a = None → policy_map data !! b = None →
  ∃ r w1 w2 d,
    get_anonymizer_dto a w = (inr r, w1) ∧
    get_anonymizer_dto b w1 = (inr r, w2) ∧
    deref w2 r = Some d ∧
    Dict.get "entity_type" d = Some (VStr b).
Proof.
  intros Hw Ha Hb.
  destruct (reachable_invariant _ _ _ _ Hw) as (Hmap & Hne & d & c & Hd & _).
  pose proof (get_anonymizer_dto_spec a w d Hd) as Hget.
  rewrite Hmap in Hget. specialize (Hget Hne).
  assert (three_tier (policy_map data) b = three_tier (policy_map data) a) as Hsame.
  { unfold three_tier. by rewrite Ha, Hb. }
  set (r := three_tier (policy_map data) a) in *.
  destruct (get_anonymizer_dto a w) as [r1 w1] eqn:E. injection Hget as -> Hw1.
  assert (reachable data registry h w1) as Hr1 by by eapply reachable_get.
  destruct (reachable_invariant _ _ _ _ Hr1) as (Hmap1 & Hne1 & d1 & c1 & Hd1 & _).
  pose proof (get_anonymizer_dto_spec b w1 d1 Hd1) as Hget1.
  rewrite Hmap1, Hsame in Hget1. specialize (Hget1 Hne1).
  destruct r as [l|].
  - eexists (Supplied l), w1, _, _. split_and!; [done|exact Hget1| |].
    + simpl. by rewrite fn_lookup_insert.
    + apply dict_get_set_eq.
  - eexists BuiltinDefault, w1, _, _. split_and!; [done|exact Hget1|done|].
    apply dict_get_set_eq.
Qed.

Lemma fallback_policy_is_shared_witness :
  ∃ r w1 w2 d,
    get_anonymizer_dto "NAME"
      (new_request Sample.data Sample.registry Sample.policies).2 = (inr r, w1) ∧
    get_anonymizer_dto "EMAIL" w1 = (inr r, w2) ∧
    deref w2 r = Some d ∧
    Dict.get "entity_type" d = Some (VStr "EMAIL").
Proof.
  apply (fallback_policy_is_shared Sample.data Sample.registry Sample.policies _
           "NAME" "EMAIL" sample_reachable); reflexivity.
Defined.

(** X8: the data and the policy objects of a constructed request, as
    construction and any number of resolutions have left them, construct a
    request again: the tags [anonymizer] and [entity_type] written into the
    policies do not stand in the way. *)
Theorem constructed_data_constructs_again data registry h w :
  reachable data registry h w →
  (new_request data registry (heap w)).1 = inr tt.
Proof.
  intros (Hok & _ & _ & _ & Hframe)%reachable_fields.
  apply construction_succeeds in Hok as (Htext & Hres & Hall & Hrep).
  apply construction_succeeds. split_and!; try done.
  intros items key l Hitems Hin.
  destruct (Hall items key l Hitems Hin) as (type & c & Ht & Hc).
  exists type, c. split; [|done]. by rewrite Hframe.
Qed.

Lemma constructed_data_constructs_again_witness :
  (new_request Sample.data Sample.registry
     (heap (new_request Sample.data Sample.registry Sample.policies).2)).1 = inr tt.
Proof.
  apply (constructed_data_constructs_again Sample.data Sample.registry
           Sample.policies _ sample_reachable).
Defined.

(** ** Values of the wrong type *)

(** X9: a truthy text without a length (a number or [True]) passes the
    check of the text and then raises [TypeError] at [len], and a truthy
    [analyzer_results] that cannot be iterated (a number or [True]) raises
    [TypeError] at the loop; neither is an [InvalidParamException], and
    no policy object is touched. *)
Theorem unsized_values_raise_TypeError data registry h :
  ((d_text data = VBool true ∨ (∃ z, z ≠ 0%Z ∧ d_text data = VInt z)) →
   truthy (d_analyzer_results data) = true →
   (new_request data registry h).1 = inl TypeError ∧
   heap (new_request data registry h).2 = h) ∧
  ((∃ s, s ≠ "" ∧ d_text data = VStr s) →
   (d_analyzer_results data = VBool true ∨
    (∃ z, z ≠ 0%Z ∧ d_analyzer_results data = VInt z)) →
   (new_request data registry h).1 = inl TypeError ∧
   heap (new_request data registry h).2 = h).
Proof.
  split.
  - intros Htext Hspans.
    assert (truthy (d_text data) = true ∧ py_len (d_text data) = inl TypeError)
      as [Htr Hlen].
    { destruct Htext as [->|(z & Hz & ->)]; [done|]. simpl.
      by apply Z.eqb_neq in Hz as ->. }
    rewrite (new_request_policies data registry h Htr).
    unfold results_outcome. by rewrite Hspans, Hlen.
  - intros (s & Hs & Htext) Hspans.
    assert (truthy (d_text data) = true) as Htr.
    { rewrite Htext. simpl. by apply String.eqb_neq in Hs as ->. }
    assert (truthy (d_analyzer_results data) = true ∧
            py_iter (d_analyzer_results data) = inl TypeError) as [Htr' Hit].
    { destruct Hspans as [->|(z & Hz & ->)]; [done|]. simpl.
      by apply Z.eqb_neq in Hz as ->. }
    rewrite (new_request_policies data registry h Htr).
    unfold results_outcome. by rewrite Htr', Htext, Hit.
Qed.

Lemma unsized_values_raise_TypeError_witness :
  (new_request (mkData (VInt 7) (VList [Sample.span 0 5 "NAME"]) None)
     Sample.registry Sample.policies).1 = inl TypeError ∧
  (new_request (mkData Sample.text (VBool true) None)
     Sample.registry Sample.policies).1 = inl TypeError.
Proof.
  split.
  - destruct (unsized_values_raise_TypeError
                (mkData (VInt 7) (VList [Sample.span 0 5 "NAME"]) None)
                Sample.registry Sample.policies) as [Hlen _].
    apply Hlen; [|reflexivity]. right. by exists 7%Z.
  - destruct (unsized_values_raise_TypeError (mkData Sample.text (VBool true) None)
                Sample.registry Sample.policies) as [_ Hiter].
    apply Hiter; [|by left]. by exists "hello world".
Defined.

(** ** The built-in default and the keys of the registry *)

(** X10: on a constructed request the built-in default policy holds its
    kind [replace] and the registry's class for it, and beyond these only
    the tag [entity_type] of the last label that fell back to it: it never
    carries a parameter such as [new_value]. *)
Theorem builtin_default_has_no_parameters data registry h w :
  reachable data registry h w →
  ∃ replace,
    registry !! "replace" = Some replace ∧
    (default_anonymizer (self w) =
       Some [("type", VStr "replace"); ("anonymizer", VClass replace)] ∨
     ∃ label,
       default_anonymizer (self w) =
         Some [("type", VStr "replace"); ("anonymizer", VClass replace);
               ("entity_type", VStr label)]).
Proof.
  induction 1 as [w Hnew|w label r w' _ (c & Hc & IH) Hget].
  - pose proof (new_request_spec data registry h) as (_ & _ & _ & _ & _ & _ & Hok).
    rewrite Hnew in Hok. simpl in Hok.
    destruct (Hok eq_refl) as (_ & _ & c & Hc & Hd). exists c. split; [done|by left].
  - exists c. split; [done|].
    destruct (get_anonymizer_dto_set_item label w) as [r' Hr'].
    rewrite Hr' in Hget.
    pose proof (set_item_cases r' "entity_type" (VStr label) w) as Hset.
    destruct r' as [l|].
    + rewrite Hset in Hget. injection Hget as _ <-. exact IH.
    + destruct IH as [Hd|[label' Hd]]; rewrite Hd in Hset; rewrite Hset in Hget;
        injection Hget as _ <-; right; by exists label.
Qed.

Lemma builtin_default_has_no_parameters_witness :
  ∃ replace,
    Sample.registry !! "replace" = Some replace ∧
    (default_anonymizer
       (self (new_request Sample.data Sample.registry Sample.policies).2) =
       Some [("type", VStr "replace"); ("anonymizer", VClass replace)] ∨
     ∃ label,
       default_anonymizer
         (self (new_request Sample.data Sample.registry Sample.policies).2) =
         Some [("type", VStr "replace"); ("anonymizer", VClass replace);
               ("entity_type", VStr label)]).
Proof.
  apply (builtin_default_has_no_parameters Sample.data Sample.registry
           Sample.policies _ sample_reachable).
Defined.

Lemma lower_char_idempotent c : lower_char (lower_char c) = lower_char c.
Proof. by destruct c as [[] [] [] [] [] [] [] []]. Qed.

Lemma lower_idempotent s : lower (lower s) = lower s.
Proof. induction s as [|c s IH]; simpl; [done|]. by rewrite lower_char_idempotent, IH. Qed.

(** X11: the class [__get_anonymizer] returns for a policy is registered
    under a key that is its own lowercase: a class the registry holds only
    under a key with capitals is never found, whatever the policy says. *)
Theorem get_anonymizer_finds_lowercase_keys anonymizer w c :
  (__get_anonymizer anonymizer w).1 = inr c →
  ∃ key, anonymizers (self w) !! key = Some c ∧ lower key = key.
Proof.
  rewrite get_anonymizer_spec. simpl.
  intros (type & _ & Hc)%class_of_inr.
  exists (lower type). split; [done|apply lower_idempotent].
Qed.

Lemma get_anonymizer_finds_lowercase_keys_witness :
  ∃ key,
    Sample.registry !! key = Some "Mask" ∧ lower key = key.
Proof.
  apply (get_anonymizer_finds_lowercase_keys (Sample.policies 1%nat)
           (initial Sample.registry Sample.policies) "Mask").
  reflexivity.
Defined.

(** ** What construction and resolution write into the policies *)

(** A successful construction has put its class into every policy of the
    map. *)
Lemma new_request_installs data registry h key l :
  (new_request data registry h).1 = inr tt →
  policy_map data !! key = Some l →
  ∃ type anonymizer,
    Dict.get "type" (h l) = Some (VStr type) ∧
    registry !! lower type = Some anonymizer ∧
    Dict.get "anonymizer" (heap (new_request data registry h).2 l) =
      Some (VClass anonymizer).
Proof.
  intros Hok (items & Hitems & Hin)%policy_map_elem_of.
  pose proof Hok as (Htext & Hres & _)%construction_succeeds.
  revert Hok. rewrite (new_request_policies data registry h Htext), Hres.
  unfold __handle_anonymizers. rewrite Hitems.
  set (w1 := mkWorld _ _).
  pose proof (anonymizers_loop_installed items w1) as [_ Hinst].
  destruct (anonymizers_loop items w1) as [[e|[]] w2]; [done|].
  destruct (registry !! "replace"); [|done]. intros _. simpl in *.
  destruct (Hinst eq_refl key l Hin) as (c & Hc & Ha).
  apply class_of_inr in Hc as (type & Ht & Hc). by exists type, c.
Qed.

(** The policy a resolution returns is the policy it found, with the label
    set in [entity_type]. *)
Lemma get_anonymizer_dto_tags label w r :
  (get_anonymizer_dto label w).1 = inr r →
  ∃ d, deref w r = Some d ∧
       deref (get_anonymizer_dto label w).2 r =
         Some (Dict.set "entity_type" (VStr label) d).
Proof.
  destruct (get_anonymizer_dto_set_item label w) as [r' ->].
  pose proof (set_item_cases r' "entity_type" (VStr label) w) as Hset.
  destruct r' as [l|]; [|destruct (default_anonymizer (self w)) as [d|] eqn:Hd];
    rewrite Hset; simpl; [| |done]; intros [= <-]; simpl.
  - exists (heap w l). by rewrite fn_lookup_insert.
  - by exists d.
Qed.

(** C5, amended: policies are changed by tagging only.  Construction changes
    no field of a policy of the caller other than [anonymizer], and a
    successful construction has set that field, in every policy of the map,
    to the class registered for its kind.  [get_anonymizer_dto] sets the
    field [entity_type] of the policy it returns to the label, and changes
    no other field of it and no other policy.  Neither changes which policy
    a label of the map stands for. *)
Theorem policies_change_in_tags_only :
  (∀ data registry h l k,
     k ≠ "anonymizer" →
     Dict.get k (heap (new_request data registry h).2 l) = Dict.get k (h l)) ∧
  (∀ label w l k,
     k ≠ "entity_type" →
     Dict.get k (heap (get_anonymizer_dto label w).2 l) = Dict.get k (heap w l)) ∧
  (∀ label w l,
     (get_anonymizer_dto label w).1 ≠ inr (Supplied l) →
     heap (get_anonymizer_dto label w).2 l = heap w l) ∧
  (∀ label w,
     _anonymizers (self (get_anonymizer_dto label w).2) = _anonymizers (self w)) ∧
  (∀ data registry h key l,
     (new_request data registry h).1 = inr tt →
     policy_map data !! key = Some l →
     _anonymizers (self (new_request data registry h).2) !! key = Some l ∧
     ∃ type anonymizer,
       Dict.get "type" (h l) = Some (VStr type) ∧
       registry !! lower type = Some anonymizer ∧
       Dict.get "anonymizer" (heap (new_request data registry h).2 l) =
         Some (VClass anonymizer)) ∧
  (∀ label w r,
     (get_anonymizer_dto label w).1 = inr r →
     ∃ d,
       deref w r = Some d ∧
       deref (get_anonymizer_dto label w).2 r =
         Some (Dict.set "entity_type" (VStr label) d) ∧
       Dict.get "entity_type" (Dict.set "entity_type" (VStr label) d) =
         Some (VStr label)).
Proof.
  split_and!.
  - intros data registry h l k Hk.
    by destruct (new_request_spec data registry h) as (_ & _ & _ & _ & Hframe & _);
      apply Hframe.
  - intros label w l k Hk.
    by destruct (get_anonymizer_dto_frame label w) as (_ & _ & _ & Hframe);
      apply Hframe.
  - intros label w l.
    destruct (get_anonymizer_dto_set_item label w) as [r ->].
    pose proof (set_item_cases r "entity_type" (VStr label) w) as Hset.
    destruct r as [l'|]; [|destruct (default_anonymizer (self w))];
      rewrite Hset; simpl; try done.
    intros Hne. rewrite fn_lookup_insert_ne; [done|]. by intros ->.
  - intros label w.
    destruct (get_anonymizer_dto_set_item label w) as [r ->].
    pose proof (set_item_cases r "entity_type" (VStr label) w) as Hset.
    by destruct r as [l'|]; [|destruct (default_anonymizer (self w))];
      rewrite Hset.
  - intros data registry h key l Hok Hkey. split.
    + pose proof (new_request_spec data registry h) as (_ & _ & _ & _ & _ & _ & Hmap).
      destruct (Hmap Hok) as (-> & _). done.
    + by apply (new_request_installs data registry h key).
  - intros label w r Hr.
    destruct (get_anonymizer_dto_tags label w r Hr) as (d & Hd & Hd').
    exists d. split_and!; [done..|]. apply dict_get_set_eq.
Qed.

Lemma policies_change_in_tags_only_witness :
  Dict.get "type"
    (heap (new_request Sample.data Sample.registry Sample.policies).2 1%nat) =
    Some (VStr "MASK") ∧
  Dict.get "type"
    (heap (get_anonymizer_dto "PHONE_NUMBER"
             (new_request Sample.data Sample.registry Sample.policies).2).2 1%nat) =
    Some (VStr "MASK") ∧
  (∃ type anonymizer,
     Dict.get "type" (Sample.policies 1%nat) = Some (VStr type) ∧
     Sample.registry !! lower type = Some anonymizer ∧
     Dict.get "anonymizer"
       (heap (new_request Sample.data Sample.registry Sample.policies).2 1%nat) =
       Some (VClass anonymizer)) ∧
  (∃ d,
     deref (new_request Sample.data Sample.registry Sample.policies).2
       (Supplied 1) = Some d ∧
     deref (get_anonymizer_dto "PHONE_NUMBER"
              (new_request Sample.data Sample.registry Sample.policies).2).2
       (Supplied 1) = Some (Dict.set "entity_type" (VStr "PHONE_NUMBER") d)).
Proof.
  destruct policies_change_in_tags_only as (Hnew & Hget & _ & _ & Hset & Htag).
  split_and!.
  - by rewrite Hnew.
  - by rewrite Hget, Hnew.
  - by destruct (Hset Sample.data Sample.registry Sample.policies "PHONE_NUMBER"
                   1%nat eq_refl eq_refl) as [_ ?].
  - destruct (Htag "PHONE_NUMBER"
                (new_request Sample.data Sample.registry Sample.policies).2
                (Supplied 1) eq_refl) as (d & Hd & Hd' & _).
    by exists d.
Defined.
